(** * fortune-cookie: a shallow embedding of [server.js]

    The server has two request handlers: the deterministic ("classic")
    fortune selector of [GET /api/fortune], and the cached AI fortune of
    [POST /api/fortune-ai]; a third route, [GET /api/diag], reports on the
    process.  This development embeds them, together with
    the fragment of JavaScript they rely on: strings as sequences of UTF-16
    code units, 32-bit integer arithmetic, JSON values and their
    conversions, exceptions, and the process-wide cache. *)

From Stdlib Require Import ZArith NArith Lia String Ascii DecimalString.
From Stdlib Require QArith Qround.
From stdpp Require Import base option list gmap.

Local Open Scope Z_scope.

(** ** JavaScript strings

    A JavaScript string is a sequence of UTF-16 code units; [length],
    [charCodeAt], [slice], [split] and [trim] all work on code units. *)

Definition jsstring := list N.

(** String literals of the source are written as Rocq strings (UTF-8
    bytes) and transcoded to code units by [js]. *)
Fixpoint utf16_of_utf8 (bs : list N) : jsstring :=
  match bs with
  | [] => []
  | b0 :: r0 =>
    if (b0 <? 128)%N then b0 :: utf16_of_utf8 r0
    else if (b0 <? 224)%N then
      match r0 with
      | b1 :: r1 =>
        (N.lor (N.shiftl (N.land b0 31) 6) (N.land b1 63)) :: utf16_of_utf8 r1
      | _ => []
      end
    else if (b0 <? 240)%N then
      match r0 with
      | b1 :: b2 :: r2 =>
        (N.lor (N.shiftl (N.land b0 15) 12)
               (N.lor (N.shiftl (N.land b1 63) 6) (N.land b2 63)))
          :: utf16_of_utf8 r2
      | _ => []
      end
    else
      match r0 with
      | b1 :: b2 :: b3 :: r3 =>
        let cp := N.lor (N.shiftl (N.land b0 7) 18)
                   (N.lor (N.shiftl (N.land b1 63) 12)
                     (N.lor (N.shiftl (N.land b2 63) 6) (N.land b3 63))) in
        let v := (cp - 65536)%N in
        (55296 + N.shiftr v 10)%N :: (56320 + N.land v 1023)%N
          :: utf16_of_utf8 r3
      | _ => []
      end
  end.

Definition js (s : string) : jsstring :=
  utf16_of_utf8 (map N_of_ascii (list_ascii_of_string s)).

Definition jsstring_eqb (a b : jsstring) : bool := bool_decide (a = b).

(** ** 32-bit integers *)

(** [ToInt32]: the value modulo 2^32, read as a signed 32-bit integer. *)
Definition wrap32 (x : Z) : Z := (x + 2 ^ 31) mod 2 ^ 32 - 2 ^ 31.

(** [x << n] on Numbers: both operands go through [ToInt32]/[ToUint32],
    the shift count is taken modulo 32. *)
Definition shl32 (x n : Z) : Z := wrap32 (Z.shiftl (wrap32 x) (n mod 32)).

(** ** The deterministic selector *)

Module Hash.

(** [hashString(s)]: the loop body is
    [h = (h << 5) - h + s.charCodeAt(i); h |= 0], the result [Math.abs(h)]. *)
Definition hash_step (h : Z) (c : N) : Z :=
  wrap32 (shl32 h 5 - h + Z.of_N c).

Definition hashString (s : jsstring) : Z :=
  Z.abs (fold_left hash_step s 0).

(** The hash as the specification words it: [h = h*31 + charCode] wrapped to
    signed 32 bits at each step, absolute value at the end. *)
Definition ref_step (h : Z) (c : N) : Z := wrap32 (h * 31 + Z.of_N c).

Definition hash_ref (s : jsstring) : Z :=
  Z.abs (fold_left ref_step s 0).

(** The catalog. *)
Definition fortunes : list jsstring :=
  [ js "A small step today becomes a milestone tomorrow.";
    js "Your curiosity is your superpower.";
    js "Luck favors the prepared mind.";
    js "A door closes; a better one slides open." ].

(** [hashString(seed) % catalog.length]; [%] is the remainder that takes the
    sign of the dividend. *)
Definition select_index (catalog : list jsstring) (seed : jsstring) : Z :=
  Z.rem (hashString seed) (Z.of_nat (length catalog)).

End Hash.

(** ** String operations *)

Definition CR : N := 13.
Definition LF : N := 10.

(** [WhiteSpace] and [LineTerminator] code points: what [trim] strips at
    both ends and [parseInt] skips at the start. *)
Definition is_ws (c : N) : bool :=
  existsb (N.eqb c)
    [9; 10; 11; 12; 13; 32; 160; 5760; 8232; 8233; 8239; 8287; 12288; 65279]%N
  || ((8192 <=? c)%N && (c <=? 8202)%N).

Definition is_digit (c : N) : bool := (48 <=? c)%N && (c <=? 57)%N.

Fixpoint skip_while (p : N -> bool) (s : jsstring) : jsstring :=
  match s with
  | [] => []
  | c :: r => if p c then skip_while p r else s
  end.

Fixpoint span_while (p : N -> bool) (s : jsstring) : jsstring :=
  match s with
  | [] => []
  | c :: r => if p c then c :: span_while p r else []
  end.

Definition trimStart (s : jsstring) : jsstring := skip_while is_ws s.
Definition trimEnd (s : jsstring) : jsstring := rev (skip_while is_ws (rev s)).
Definition trim (s : jsstring) : jsstring := trimEnd (trimStart s).

(** A string is trimmed when it neither starts nor ends with white
    space. *)
Definition trimmed (s : jsstring) : Prop :=
  (forall c, head s = Some c -> is_ws c = false)
  /\ (forall d, last s = Some d -> is_ws d = false).

(** [s.split(sep)] for a one-unit separator: never the empty array. *)
Fixpoint split_on (sep : N) (s : jsstring) : list jsstring :=
  match s with
  | [] => [[]]
  | c :: r =>
    if (c =? sep)%N then [] :: split_on sep r
    else match split_on sep r with
         | [] => [[c]]
         | l :: ls => (c :: l) :: ls
         end
  end.

(** [a.join(sep)]. *)
Fixpoint join_with (sep : jsstring) (ls : list jsstring) : jsstring :=
  match ls with
  | [] => []
  | [l] => l
  | l :: rest => l ++ sep ++ join_with sep rest
  end.

(** [x.slice(0, e)] on an array or a string: a negative end counts from the
    back, and both ends are clamped to the length. *)
Definition slice0 {A} (l : list A) (e : Z) : list A :=
  let len := Z.of_nat (length l) in
  take (Z.to_nat (if e <? 0 then Z.max (len + e) 0 else Z.min e len)) l.

(** ** Exceptions and values *)

(** What is thrown: an Error object of one of these classes, with its
    message.  The provider rejects with Error objects as well. *)
Inductive exn :=
| TypeError (message : jsstring)
| RangeError (message : jsstring)
| Error (message : jsstring).

Inductive result (A : Type) :=
| Ok (a : A)
| Throw (e : exn).
Arguments Ok {A} a.
Arguments Throw {A} e.

#[global] Instance result_ret : MRet result := fun A a => Ok a.
#[global] Instance result_bind : MBind result := fun A B f m =>
  match m with
  | Ok a => f a
  | Throw e => Throw e
  end.

(** The values a JSON document parses to, and [undefined] for what is
    absent.  A Number is carried by its decimal rendering
    ([Number::toString]): the handlers only ever convert the Numbers they
    receive to strings or test them for truthiness.  An object is the list
    of its own properties. *)
#[warnings="-register-all"]
Inductive jsval :=
| JUndefined
| JNull
| JBool (b : bool)
| JNum (rendering : jsstring)
| JStr (s : jsstring)
| JArr (items : list jsval)
| JObj (props : list (jsstring * jsval)).

Fixpoint own_prop (k : jsstring) (props : list (jsstring * jsval)) : option jsval :=
  match props with
  | [] => None
  | (k', v) :: rest => if jsstring_eqb k k' then Some v else own_prop k rest
  end.

(** [ToString].  A parsed object has no callable own property: one that
    owns a [toString] key shadows [Object.prototype.toString] with a value
    that cannot be called, [valueOf] (own or inherited) yields no
    primitive, and the conversion throws a TypeError.  Any other object
    renders as [[object Object]].  An array joins its items with commas,
    [null] and [undefined] items rendering empty. *)
Fixpoint ToString (v : jsval) : result jsstring :=
  match v with
  | JUndefined => Ok (js "undefined")
  | JNull => Ok (js "null")
  | JBool b => Ok (if b then js "true" else js "false")
  | JNum r => Ok r
  | JStr s => Ok s
  | JArr items =>
    (fix join_items (l : list jsval) : result jsstring :=
       match l with
       | [] => Ok []
       | x :: rest =>
         s ← match x with
             | JUndefined | JNull => Ok []
             | _ => ToString x
             end;
         match rest with
         | [] => Ok s
         | _ => t ← join_items rest; Ok (s ++ js "," ++ t)
         end
       end) items
  | JObj props =>
    match own_prop (js "toString") props with
    | Some _ => Throw (TypeError (js "Cannot convert object to primitive value"))
    | None => Ok (js "[object Object]")
    end
  end.

(** [ToBoolean]. *)
Definition truthy (v : jsval) : bool :=
  match v with
  | JUndefined | JNull => false
  | JBool b => b
  | JNum r => negb (jsstring_eqb r (js "0")) && negb (jsstring_eqb r (js "NaN"))
  | JStr s => negb (jsstring_eqb s [])
  | JArr _ | JObj _ => true
  end.

(** [a || b]. *)
Definition js_or (a b : jsval) : jsval := if truthy a then a else b.

(** [v === 'literal']. *)
Definition is_string (v : jsval) (lit : jsstring) : bool :=
  match v with
  | JStr s => jsstring_eqb s lit
  | _ => false
  end.

(** [o[name]] for a property name that no built-in prototype defines
    ([lang], [theme], [lines], [localDate], [choices], [message],
    [content]), on a value that is neither [null] nor [undefined]. *)
Definition get_prop (o : jsval) (name : jsstring) : jsval :=
  match o with
  | JObj props => default JUndefined (own_prop name props)
  | _ => JUndefined
  end.

(** [o[0]]. *)
Definition get_first (o : jsval) : jsval :=
  match o with
  | JArr (x :: _) => x
  | JStr (c :: _) => JStr [c]
  | JObj props => default JUndefined (own_prop (js "0") props)
  | _ => JUndefined
  end.

Definition nullish (v : jsval) : bool :=
  match v with
  | JUndefined | JNull => true
  | _ => false
  end.

(** [o?.x]: [undefined] when [o] is [null] or [undefined]. *)
Definition opt_chain (o : jsval) (get : jsval -> jsval) : jsval :=
  if nullish o then JUndefined else get o.

(** [o.x]: a TypeError when [o] is [null] or [undefined]. *)
Definition member (o : jsval) (get : jsval -> jsval) : result jsval :=
  if nullish o
  then Throw (TypeError (js "Cannot read properties of undefined"))
  else Ok (get o).

(** A binding with a default, [{ x = d } = o]: the default stands in for
    [undefined] only. *)
Definition with_default (v d : jsval) : jsval :=
  match v with
  | JUndefined => d
  | _ => v
  end.

Definition digits_value (ds : jsstring) : Z :=
  fold_left (fun a c => a * 10 + (Z.of_N c - 48)) ds 0.

(** The integer that a string starts with, after leading white space: an
    optional sign and the longest run of decimal digits; [None] (NaN) when
    there is no digit. *)
Definition int_prefix (s : jsstring) : option Z :=
  let s1 := trimStart s in
  let '(neg, s2) :=
    match s1 with
    | 45%N :: r => (true, r)
    | 43%N :: r => (false, r)
    | _ => (false, s1)
    end in
  let ds := span_while is_digit s2 in
  match ds with
  | [] => None
  | _ => Some (if neg : bool then - digits_value ds else digits_value ds)
  end.

(** [parseInt(v, 10)].  The result stands for the Number nearest to it;
    the handler only compares it with 0, 1 and 2, where the two agree (an
    overflow to Infinity is above 2 as well). *)
Definition parseInt10 (v : jsval) : result (option Z) :=
  s ← ToString v;
  Ok (int_prefix s).

(** [String(n)] for an integral Number. *)
Definition Number_toString (n : Z) : jsstring :=
  js (NilZero.string_of_int (Z.to_int n)).

(** ** Formatting the generated text *)

Module Format.

(** [s.length > maxPerLine ? s.slice(0, maxPerLine - 1) + '…' : s] *)
Definition truncLine (maxPerLine : Z) (s : jsstring) : jsstring :=
  if Z.of_nat (length s) >? maxPerLine
  then slice0 s (maxPerLine - 1) ++ js "…"
  else s.

Definition nonempty (s : jsstring) : bool := negb (jsstring_eqb s []).

(** [s.replace(/\r/g, '').trim()] *)
Definition strip (s : jsstring) : jsstring :=
  trim (List.filter (fun c => negb (c =? CR)%N) s).

(** [String(text || '').replace(/\r/g, '').trim()] *)
Definition cleaned (text : jsval) : result jsstring :=
  s ← ToString (js_or text (JStr []));
  Ok (strip s).

(** [c.split('\n').map(s => s.trim()).filter(Boolean)] *)
Definition lines_of (c : jsstring) : list jsstring :=
  List.filter nonempty (map trim (split_on LF c)).

(** [formatFortune(text, lines = 2, maxPerLine = 140)]; the callers pass
    [lines] and leave [maxPerLine] to its default. *)
Definition formatFortune (text : jsval) (lines maxPerLine : Z) : result jsstring :=
  c ← cleaned text;
  if negb (nonempty c) then Ok []
  else
    Ok (join_with [LF]
          (map (truncLine maxPerLine) (slice0 (lines_of c) lines))).

(** The formatting as the specification words it, on a string: strip
    carriage returns, trim, split into lines, trim each and drop the empty
    ones, keep at most [lines] of them, cap each at [cap] code units with an
    ellipsis as the last one, rejoin with newlines. *)
Definition cap_line (cap : nat) (s : jsstring) : jsstring :=
  if (length s <=? cap)%nat then s else take (cap - 1) s ++ js "…".

Definition format_spec (text : jsstring) (lines cap : nat) : jsstring :=
  let stripped := List.filter (fun c => negb (c =? 13)%N) text in
  let kept := List.filter (fun l => negb (length l =? 0)%nat)
                (map trim (split_on 10 (trim stripped))) in
  join_with [10%N] (map (cap_line cap) (take lines kept)).

End Format.

(** ** The handlers' effects

    A handler reads the clock, draws random bytes, calls the provider,
    reads and writes the process-wide cache, fills in the response, and may
    throw.  Writing to the console is left out: it reads no state that
    the responses or the cache depend on.  The building of the lines that
    are written is not, where it can throw. *)

(** [aiCache]: key -> { fortune, expiresAt }. *)
Record entry := { fortune : jsstring; expiresAt : Z }.

Inductive payload :=
| FortuneBody (text : jsstring) (cached : bool) (source : jsstring)
| ClassicBody (text : option jsstring) (secondsUntilNext : Z) (source : jsstring)
| ErrorBody (error : jsstring).

(** The response under construction: [res.status], [res.cookie],
    [res.json].  [cached] in [FortuneBody] tells whether the body carries
    [cached: true]. *)
Record response := {
  statusCode : Z;
  setCookie : option jsstring;
  sent : option payload }.

Definition fresh_response : response :=
  {| statusCode := 200; setCookie := None; sent := None |}.

(** What lies outside the process: the successive readings of the clock
    ([Date.now()], [new Date()]), the successive draws of
    [crypto.randomBytes(16).toString('hex')], the credential in the
    process environment, and what the n-th provider call answers to a
    prompt: a response or a rejection. *)
Record env := {
  clock : nat -> Z;
  randomHex : nat -> jsstring;
  apiKey : option jsstring;
  completion : nat -> jsstring -> result jsval }.

Record hstate := {
  aiCache : gmap jsstring entry;
  clock_reads : nat;
  random_draws : nat;
  provider_calls : list jsstring;
  res : response }.

Definition M (A : Type) : Type := hstate -> result A * hstate.

#[global] Instance M_ret : MRet M := fun A a s => (Ok a, s).
#[global] Instance M_bind : MBind M := fun A B f m s =>
  match m s with
  | (Ok a, s') => f a s'
  | (Throw e, s') => (Throw e, s')
  end.

Definition throw {A} (e : exn) : M A := fun s => (Throw e, s).
Definition lift {A} (r : result A) : M A := fun s => (r, s).

(** [try { m } catch (err) { h err }] *)
Definition try_catch {A} (m : M A) (h : exn -> M A) : M A := fun s =>
  match m s with
  | (Ok a, s') => (Ok a, s')
  | (Throw e, s') => h e s'
  end.

(** The updates of the state, one per field. *)
Definition set_cache (m : gmap jsstring entry) (s : hstate) : hstate :=
  {| aiCache := m; clock_reads := clock_reads s; random_draws := random_draws s;
     provider_calls := provider_calls s; res := res s |}.
Definition tick (s : hstate) : hstate :=
  {| aiCache := aiCache s; clock_reads := S (clock_reads s);
     random_draws := random_draws s; provider_calls := provider_calls s;
     res := res s |}.
Definition drawn (s : hstate) : hstate :=
  {| aiCache := aiCache s; clock_reads := clock_reads s;
     random_draws := S (random_draws s); provider_calls := provider_calls s;
     res := res s |}.
Definition called (prompt : jsstring) (s : hstate) : hstate :=
  {| aiCache := aiCache s; clock_reads := clock_reads s;
     random_draws := random_draws s; provider_calls := prompt :: provider_calls s;
     res := res s |}.
Definition set_res (r : response) (s : hstate) : hstate :=
  {| aiCache := aiCache s; clock_reads := clock_reads s;
     random_draws := random_draws s; provider_calls := provider_calls s;
     res := r |}.

(** [res.status(code)] *)
Definition res_status (code : Z) : M unit := fun s =>
  (Ok tt, set_res {| statusCode := code; setCookie := setCookie (res s);
                     sent := sent (res s) |} s).

(** [res.cookie('fcid', id, ...)] *)
Definition res_cookie (id : jsstring) : M unit := fun s =>
  (Ok tt, set_res {| statusCode := statusCode (res s); setCookie := Some id;
                     sent := sent (res s) |} s).

(** [res.json(body)] *)
Definition res_json (b : payload) : M unit := fun s =>
  (Ok tt, set_res {| statusCode := statusCode (res s);
                     setCookie := setCookie (res s); sent := Some b |} s).

(** [aiCache.get(key)] *)
Definition cache_get (key : jsstring) : M (option entry) := fun s =>
  (Ok (aiCache s !! key), s).

(** [aiCache.set(key, e)] *)
Definition cache_set (key : jsstring) (e : entry) : M unit := fun s =>
  (Ok tt, set_cache (<[key := e]> (aiCache s)) s).

Section Effects.
Variable E : env.

(** [Date.now()], and the instant of [new Date()]: milliseconds since
    the epoch. *)
Definition Date_now : M Z := fun s =>
  (Ok (clock E (clock_reads s)), tick s).

(** [crypto.randomBytes(16).toString('hex')] *)
Definition randomBytes16_hex : M jsstring := fun s =>
  (Ok (randomHex E (random_draws s)), drawn s).

(** [await client.chat.completions.create({ ..., content: prompt })] *)
Definition chat_completions_create (prompt : jsstring) : M jsval := fun s =>
  (completion E (length (provider_calls s)) prompt, called prompt s).
End Effects.


(** ** The classic endpoint, [GET /api/fortune] *)

Module Classic.

(** The time zones: a zone identifier names the offset from UTC, in
    milliseconds, that the zone has at each instant ([None] for an
    identifier that [Intl] rejects).  The host's own zone is given by the
    two conversions of [Date]: [host_local], the wall-clock reading of the
    host at an instant ([LocalTime]), and [host_utc], the instant at which
    the host's wall clock shows a reading ([UTC]; where daylight saving
    makes a reading occur twice or not at all, the choice is the zone's).
    [format_date] renders the calendar date of a wall-clock reading as
    [YYYY-MM-DD]. *)
Record zones := {
  zone : jsstring -> option (Z -> Z);
  host_local : Z -> Z;
  host_utc : Z -> Z;
  format_date : Z -> jsstring }.

(** A host whose zone keeps the offset [c] from UTC all year. *)
Definition fixed_offset (T : zones) (c : Z) : Prop :=
  forall t, host_local T t = t + c /\ host_utc T t = t - c.

Record request := {
  user_agent : option jsstring;   (* req.get('user-agent') *)
  ip : option jsstring;           (* req.ip *)
  query_tz : jsval }.             (* req.query.tz *)

Definition or_empty (o : option jsstring) : jsstring := default [] o.

(** [arr[i]]. *)
Definition array_get (arr : list jsstring) (i : Z) : option jsstring :=
  if i <? 0 then None else arr !! Z.to_nat i.

Section Handler.
Variable E : env.
Variable T : zones.

(** The [timeZone] option of [Intl.DateTimeFormat] and
    [toLocaleString]: converted to a string, then looked up; a
    RangeError when it names no zone. *)
Definition resolveZone (tz : jsval) : result (Z -> Z) :=
  name ← ToString tz;
  match zone T name with
  | Some off => Ok off
  | None => Throw (RangeError (js "Invalid time zone specified"))
  end.

Definition getTodayDate (tz : jsval) : M jsstring :=
  try_catch
    (off ← lift (resolveZone tz);
     now ← Date_now E;
     mret (format_date T (now + off now)))
    (fun _ =>
     now ← Date_now E;
     mret (format_date T (host_local T now))).

(** [d.setHours(24, 0, 0, 0)]: the instant at which the host's wall clock
    shows the midnight that ends the host's day of [d]. *)
Definition setHours24 (d : Z) : Z :=
  host_utc T ((host_local T d / 86400000 + 1) * 86400000).

(** [new Date(now.toLocaleString('en-US', { timeZone: tz }))]: the
    wall-clock reading of [now] in the zone, to the second, read back as
    a time of the host's zone. *)
Definition localDate (tz : jsval) (now : Z) : result Z :=
  off ← resolveZone tz;
  Ok (host_utc T (1000 * ((now + off now) / 1000))).

Definition secondsUntilNext (tz : jsval) : M Z :=
  try_catch
    (now ← Date_now E;
     local ← lift (localDate tz now);
     let next := setHours24 local in
     mret (Z.max 0 ((next - local) / 1000)))
    (fun _ =>
     now ← Date_now E;
     let next := setHours24 now in
     mret (Z.max 0 ((next - now) / 1000))).

Definition api_fortune (req : request) : M unit :=
  let ua := or_empty (user_agent req) in
  let ip := or_empty (ip req) in
  let tz := js_or (query_tz req) (JStr (js "UTC")) in
  today ← getTodayDate tz;
  let seed := today ++ js "|" ++ ip ++ js "|" ++ ua in
  let idx := Hash.select_index Hash.fortunes seed in
  secs ← secondsUntilNext tz;
  res_json (ClassicBody (array_get Hash.fortunes idx) secs (js "classic")).

(** One request served: the response, and the state it leaves. *)
Definition serve (req : request) (s : hstate) : response * hstate :=
  let s' := snd (api_fortune req (set_res fresh_response s)) in
  (res s', s').
End Handler.

End Classic.

(** ** The AI endpoint, [POST /api/fortune-ai] *)

Module AI.

(** A request: the parsed JSON body ([undefined] when there is none) and
    [req.cookies.fcid]: [undefined] when the request carries no such
    cookie, otherwise the cookie's value -- a string, or, for a value
    [j:<json>] whose JSON text parses to a truthy value, that value (a
    Number, [true], a string, an array or an object), as [cookie-parser]
    decodes it. *)
Record request := {
  body : jsval;
  fcid : jsval }.

(** [/^\d{4}-\d{2}-\d{2}$/.test(s)] *)
Definition matchLocalDate (s : jsstring) : bool :=
  match s with
  | [y1; y2; y3; y4; h1; m1; m2; h2; d1; d2] =>
    is_digit y1 && is_digit y2 && is_digit y3 && is_digit y4
    && (h1 =? 45)%N && is_digit m1 && is_digit m2
    && (h2 =? 45)%N && is_digit d1 && is_digit d2
  | _ => false
  end.

(** [/^\d{4}-\d{2}-\d{2}$/.test(localDate || '')] *)
Definition localDateOk (localDate : jsval) : result bool :=
  s ← ToString (js_or localDate (JStr []));
  Ok (matchLocalDate s).

(** [lang === 'tr' ? 'tr' : 'en'] *)
Definition normLang (lang : jsval) : jsstring :=
  if is_string lang (js "tr") then js "tr" else js "en".

(** [Math.min(Math.max(parseInt(lines, 10) || 1, 1), 2)] *)
Definition clampLines (lines : jsval) : result Z :=
  n ← parseInt10 lines;
  let n1 := match n with
            | Some k => if k =? 0 then 1 else k
            | None => 1
            end in
  Ok (Z.min (Z.max n1 1) 2).

(** [`${userId}:${lang}:${theme}:${lines}:${localDate}`] *)
Definition cacheKey (userId : jsval) (lang : jsstring) (theme : jsval) (lines : Z)
    (localDate : jsval) : result jsstring :=
  u ← ToString userId;
  t ← ToString theme;
  d ← ToString localDate;
  Ok (u ++ js ":" ++ lang ++ js ":" ++ t ++ js ":"
        ++ Number_toString lines ++ js ":" ++ d).

(** [`${userId.slice(0,8)}`] in the log lines: a string gives its first
    eight units and an array its first eight items, converted to a string;
    any other value has no callable [slice] (a parsed object that owns a
    [slice] key holds a value that cannot be called), and the call throws
    a TypeError. *)
Definition user_prefix (userId : jsval) : result jsstring :=
  match userId with
  | JStr s => Ok (slice0 s 8)
  | JArr items => ToString (JArr (slice0 items 8))
  | _ => Throw (TypeError (js "userId.slice is not a function"))
  end.

(** The text of the two log lines of the handler that mention the user,
    [user=${userId.slice(0,8)} lang=${lang} day=${localDate}]: only
    whether building it throws has a bearing on the response. *)
Definition log_user (userId : jsval) (lang : jsstring) (localDate : jsval)
    : result jsstring :=
  u ← user_prefix userId;
  d ← ToString localDate;
  Ok (js "user=" ++ u ++ js " lang=" ++ lang ++ js " day=" ++ d).

(** The bindings of
    [{ lang = 'en', theme = 'relationship', lines = 2, localDate } = req.body || {}],
    [lang] already through [lang === 'tr' ? 'tr' : 'en']. *)
Definition field (req : request) (name : string) : jsval :=
  get_prop (js_or (body req) (JObj [])) (js name).
Definition lang_of (req : request) : jsstring :=
  normLang (with_default (field req "lang") (JStr (js "en"))).
Definition theme_of (req : request) : jsval :=
  with_default (field req "theme") (JStr (js "relationship")).
Definition lines_of (req : request) : jsval :=
  with_default (field req "lines") (JNum (js "2")).
Definition localDate_of (req : request) : jsval :=
  field req "localDate".

(** [ttlMsFromLocalDate(localDate)]: the function declares no parameter
    and ignores the argument it is called with. *)
Definition ttlMsFromLocalDate (localDate : jsval) : Z := 26 * 3600 * 1000.

Definition prompt_tr : jsstring :=
  js "İlişki odaklı KISA bir fal yaz. 1-2 satır. Konular: yakınlaşma, iletişim, onarma, ayrılık sonrası iyileşme.
Sıcak, modern, net. Emoji ve klişe yok.".

Definition prompt_en (lines : Z) : jsstring :=
  js "Write a SHORT, relationship-focused fortune in " ++ Number_toString lines
  ++ js " line(s).
Themes: closeness, communication, repair, healing after breakups.
Warm, modern, clear. No emojis. No clichés.".

Definition prompt (lang : jsstring) (lines : Z) : jsstring :=
  if jsstring_eqb lang (js "tr") then prompt_tr else prompt_en lines.

Definition fallback_tr : jsstring := js "Bugün açık konuşmak bağınızı onarabilir.".
Definition fallback_en : jsstring := js "Speak plainly today; repair begins there.".

(** [rsp.choices?.[0]?.message?.content || ''] *)
Definition completion_text (rsp : jsval) : result jsval :=
  choices ← member rsp (fun o => get_prop o (js "choices"));
  let first := opt_chain choices get_first in
  let message := opt_chain first (fun o => get_prop o (js "message")) in
  let content := opt_chain message (fun o => get_prop o (js "content")) in
  Ok (js_or content (JStr [])).

Section Handler.
Variable E : env.

Definition getOrSetUserId (req : request) : M jsval :=
  if truthy (fcid req) then mret (fcid req)
  else id' ← randomBytes16_hex E; res_cookie id';; mret (JStr id').

(** The id that [getOrSetUserId] yields in state [s]: the cookie's, or
    the next random draw. *)
Definition userIdOf (req : request) (s : hstate) : jsval :=
  if truthy (fcid req) then fcid req else JStr (randomHex E (random_draws s)).

Definition generateWithOpenAI (lang : jsstring) (lines : Z) : M jsval :=
  match apiKey E with
  | Some (_ :: _) =>
    rsp ← chat_completions_create E (prompt lang lines);
    lift (completion_text rsp)
  | _ => throw (Error (js "OPENAI_API_KEY is not set"))
  end.

(** The generation path, after a cache miss.  The log line of a stored
    text is built before [res.json] is called: the user's part first, then
    [Date.now() - start]. *)
Definition generate (userId : jsval) (key lang : jsstring) (lines : Z)
    (localDate : jsval) : M unit :=
  raw ← generateWithOpenAI lang lines;
  text ← lift (Format.formatFortune raw lines 140);
  if negb (Format.nonempty text) then
    res_status 502;; res_json (ErrorBody (js "Empty AI result"))
  else
    now ← Date_now E;
    cache_set key {| fortune := text; expiresAt := now + ttlMsFromLocalDate localDate |};;
    _ ← lift (log_user userId lang localDate);
    _ ← Date_now E;
    res_json (FortuneBody text false (js "openai")).

(** The cache lookup, [cached && cached.expiresAt > Date.now()], and
    what follows from it. *)
Definition respond (userId : jsval) (key lang : jsstring) (lines : Z)
    (localDate : jsval) : M unit :=
  cached ← cache_get key;
  live ← match cached with
         | Some c => now ← Date_now E;
                     mret (if expiresAt c >? now then Some c else None)
         | None => mret None
         end;
  match live with
  | Some c =>
    _ ← lift (log_user userId lang localDate);
    res_json (FortuneBody (fortune c) true (js "cache"))
  | None => generate userId key lang lines localDate
  end.

(** The [try] block of the handler. *)
Definition try_block (req : request) : M unit :=
  let lang := lang_of req in
  let theme := theme_of req in
  let localDate := localDate_of req in
  lines ← lift (clampLines (lines_of req));
  valid ← lift (localDateOk localDate);
  if negb valid then
    res_status 400;; res_json (ErrorBody (js "localDate (YYYY-MM-DD) is required"))
  else
    userId ← getOrSetUserId req;
    key ← lift (cacheKey userId lang theme lines localDate);
    respond userId key lang lines localDate.

(** [req.body?.lang === 'tr' ? ... : ...] *)
Definition fallbackLine (req : request) : jsstring :=
  if is_string (opt_chain (body req) (fun o => get_prop o (js "lang"))) (js "tr")
  then fallback_tr else fallback_en.

Definition fortune_ai (req : request) : M unit :=
  start ← Date_now E;
  try_catch (try_block req)
    (fun err => res_json (FortuneBody (fallbackLine req) false (js "fallback"))).

(** One request served: the response, and the state it leaves.  The
    handler runs to completion: no other request is interleaved at its
    [await]. *)
Definition serve (req : request) (s : hstate) : response * hstate :=
  let s' := snd (fortune_ai req (set_res fresh_response s)) in
  (res s', s').

(** The state after a sequence of requests, served one after the other. *)
Definition serve_all (reqs : list request) (s : hstate) : hstate :=
  fold_left (fun s req => snd (serve req s)) reqs s.
End Handler.

(** Every entry of the cache expires 26 hours after one of the readings
    of the clock taken so far. *)
Definition entries_dated (E : env) (s : hstate) : Prop :=
  forall k c, aiCache s !! k = Some c ->
    exists i, (i < clock_reads s)%nat /\ expiresAt c = clock E i + 26 * 3600 * 1000.

(** The state of a process that has just started: [new Map()]. *)
Definition boot : hstate :=
  {| aiCache := ∅; clock_reads := 0; random_draws := 0;
     provider_calls := []; res := fresh_response |}.

End AI.

(** ** Sample requests and environments *)

Module Sample.

(** A well-formed provider response carrying [text]. *)
Definition completion_of (text : jsstring) : jsval :=
  JObj [(js "choices",
         JArr [JObj [(js "message", JObj [(js "content", JStr text)])]])].

(** The clock stands at 2024-01-01T00:00:00.000Z; the provider answers
    every prompt with the same two lines. *)
Definition env_ok : env :=
  {| clock := fun _ => 1704067200000;
     randomHex := fun _ => js "00112233445566778899aabbccddeeff";
     apiKey := Some (js "sk-test");
     completion := fun _ _ => Ok (completion_of (js "Speak warmly.
Trust grows slowly.")) |}.

(** No credential in the process environment. *)
Definition env_no_key : env :=
  {| clock := clock env_ok; randomHex := randomHex env_ok; apiKey := None;
     completion := completion env_ok |}.

(** The provider answers with white space only. *)
Definition env_blank : env :=
  {| clock := clock env_ok; randomHex := randomHex env_ok; apiKey := apiKey env_ok;
     completion := fun _ _ => Ok (completion_of (js "   ")) |}.

Definition day : jsval := JStr (js "2024-01-01").

(** [{ "localDate": "2024-01-01", "lang": "en" }], first without a cookie,
    then with the cookie that the first response set. *)
Definition req_day : AI.request :=
  {| AI.body := JObj [(js "localDate", day); (js "lang", JStr (js "en"))];
     AI.fcid := JUndefined |}.
Definition req_day_again : AI.request :=
  {| AI.body := AI.body req_day;
     AI.fcid := JStr (js "00112233445566778899aabbccddeeff") |}.

(** [{}]: no [localDate]. *)
Definition req_no_date : AI.request :=
  {| AI.body := JObj []; AI.fcid := JUndefined |}.

(** [{ "localDate": "2024/01/01" }]. *)
Definition req_slashes : AI.request :=
  {| AI.body := JObj [(js "localDate", JStr (js "2024/01/01"))];
     AI.fcid := JUndefined |}.

(** [{ "lines": { "toString": 1 } }]: no [localDate], and a [lines] that
    cannot be converted to a string. *)
Definition req_bad_lines : AI.request :=
  {| AI.body := JObj [(js "lines", JObj [(js "toString", JNum (js "1"))])];
     AI.fcid := JUndefined |}.

(** Two requests whose user ids and themes differ and whose keys
    coincide. *)
Definition req_left : AI.request :=
  {| AI.body := JObj [(js "theme", JStr (js "c")); (js "localDate", day)];
     AI.fcid := JStr (js "a:en:b") |}.
Definition req_right : AI.request :=
  {| AI.body := JObj [(js "theme", JStr (js "b:en:c")); (js "localDate", day)];
     AI.fcid := JStr (js "a") |}.

(** A host on UTC that knows the zone [UTC] only. *)
Definition zones_utc : Classic.zones :=
  {| Classic.zone := fun name =>
       if jsstring_eqb name (js "UTC") then Some (fun _ => 0) else None;
     Classic.host_local := fun t => t;
     Classic.host_utc := fun w => w;
     Classic.format_date := fun _ => js "2024-01-01" |}.

(** [GET /api/fortune] with no [tz]. *)
Definition req_classic : Classic.request :=
  {| Classic.user_agent := Some (js "curl/8.5.0");
     Classic.ip := Some (js "203.0.113.7");
     Classic.query_tz := JUndefined |}.

End Sample.

(** ** The diagnostics route, [GET /api/diag] *)

Module Diag.

(** What the route reads besides the credential: [process.version], what
    [require('openai/package.json').version] yields (the [require] may
    throw), and [process.uptime()], a number of seconds. *)
Record runtime := {
  node_version : jsstring;
  openai_version : result jsval;
  uptime : QArith_base.Q }.

Record body := {
  hasKey : bool;
  node : jsstring;
  openaiPkg : jsval;
  uptimeSec : Z }.

(** [Math.round(x)]: the nearest integer, a tie going up. *)
Definition Math_round (x : QArith_base.Q) : Z :=
  Qround.Qfloor (QArith_base.Qplus x (QArith_base.Qmake 1 2)).

(** [!!process.env.OPENAI_API_KEY] *)
Definition has_credential (E : env) : bool :=
  match apiKey E with
  | Some (_ :: _) => true
  | _ => false
  end.

Definition api_diag (E : env) (R : runtime) : body :=
  let openaiPkg := match openai_version R with
                   | Ok v => v
                   | Throw _ => JNull
                   end in
  {| hasKey := has_credential E;
     node := node_version R;
     openaiPkg := openaiPkg;
     uptimeSec := Math_round (uptime R) |}.

End Diag.

(** ** The outcomes of a request to the AI endpoint *)

(** A formatted text: at most [n] lines joined by newlines, each of them
    non-empty, at most 140 code units long, free of carriage returns and
    trimmed. *)
Definition formatted (n : nat) (out : jsstring) : Prop :=
  exists ls, out = join_with [LF] ls
             /\ (length ls <= n)%nat
             /\ Forall (fun l => (1 <= length l <= 140)%nat /\ (CR ∉ l) /\ (LF ∉ l)
                                  /\ trimmed l) ls.

(** Every text in the cache is a non-empty formatted text of at most two
    lines. *)
Definition entries_formatted (s : hstate) : Prop :=
  forall k c, aiCache s !! k = Some c -> fortune c <> [] /\ formatted 2 (fortune c).

(** The request carries no usable [fcid] cookie: none, or an empty one. *)
Definition cookie_missing (req : AI.request) : Prop :=
  truthy (AI.fcid req) = false.

(** The cookie that the response to a valid request sets, and the number
    of random draws after it: a request that carries a usable [fcid]
    cookie draws nothing and is given no cookie. *)
Definition cookie_set (E : env) (req : AI.request) (s : hstate) : option jsstring :=
  if truthy (AI.fcid req) then None else Some (randomHex E (random_draws s)).
Definition draws_after (req : AI.request) (s : hstate) : nat :=
  if truthy (AI.fcid req) then random_draws s else S (random_draws s).

(** The request passes the validation, with [lines] as the clamped line
    count and [key] as its key. *)
Definition valid_request (E : env) (req : AI.request) (s : hstate) (lines : Z)
    (key : jsstring) : Prop :=
  AI.clampLines (AI.lines_of req) = Ok lines
  /\ AI.localDateOk (AI.localDate_of req) = Ok true
  /\ AI.cacheKey (AI.userIdOf E req s) (AI.lang_of req) (AI.theme_of req) lines
       (AI.localDate_of req) = Ok key.

(** The key has no entry, or one that has expired at the reading [now]. *)
Definition no_live_entry (key : jsstring) (now : Z) (s : hstate) : Prop :=
  aiCache s !! key = None
  \/ (exists c, aiCache s !! key = Some c /\ expiresAt c <= now).

(** The number of readings of the clock when the lookup of [key] is over:
    one for [start], one more when the key has an entry. *)
Definition reads_after_lookup (key : jsstring) (s : hstate) : nat :=
  match aiCache s !! key with
  | Some _ => S (S (clock_reads s))
  | None => S (clock_reads s)
  end.

(** The provider's answer [a] makes the generation throw [e]: the call is
    rejected, or the response or its content cannot be read. *)
Definition provider_fails (a : result jsval) (lines : Z) (e : exn) : Prop :=
  a = Throw e
  \/ (exists rsp, a = Ok rsp /\ AI.completion_text rsp = Throw e)
  \/ (exists rsp raw, a = Ok rsp /\ AI.completion_text rsp = Ok raw
                      /\ Format.formatFortune raw lines 140 = Throw e).

(** The provider's answer [a] formats to [text]. *)
Definition provider_gives (a : result jsval) (lines : Z) (text : jsstring) : Prop :=
  exists rsp raw, a = Ok rsp /\ AI.completion_text rsp = Ok raw
                  /\ Format.formatFortune raw lines 140 = Ok text.

Definition fallback_body (req : AI.request) : payload :=
  FortuneBody (AI.fallbackLine req) false (js "fallback").

(** What one request [req] to the AI endpoint makes of a state [s]: the
    response [r] and the state [s'], path by path. *)
Inductive ai_outcome (E : env) (req : AI.request) (s : hstate) (r : response)
    (s' : hstate) : Prop :=
| Out_unconvertible e :
    AI.clampLines (AI.lines_of req) = Throw e
    \/ ((exists lines, AI.clampLines (AI.lines_of req) = Ok lines)
        /\ AI.localDateOk (AI.localDate_of req) = Throw e) ->
    r = {| statusCode := 200; setCookie := None; sent := Some (fallback_body req) |} ->
    s' = set_res r (tick s) ->
    ai_outcome E req s r s'
| Out_rejected lines :
    AI.clampLines (AI.lines_of req) = Ok lines ->
    AI.localDateOk (AI.localDate_of req) = Ok false ->
    r = {| statusCode := 400; setCookie := None;
           sent := Some (ErrorBody (js "localDate (YYYY-MM-DD) is required")) |} ->
    s' = set_res r (tick s) ->
    ai_outcome E req s r s'
| Out_no_key lines e :
    AI.clampLines (AI.lines_of req) = Ok lines ->
    AI.localDateOk (AI.localDate_of req) = Ok true ->
    AI.cacheKey (AI.userIdOf E req s) (AI.lang_of req) (AI.theme_of req) lines
      (AI.localDate_of req) = Throw e ->
    r = {| statusCode := 200; setCookie := cookie_set E req s;
           sent := Some (fallback_body req) |} ->
    s' = {| aiCache := aiCache s; clock_reads := S (clock_reads s);
            random_draws := draws_after req s; provider_calls := provider_calls s;
            res := r |} ->
    ai_outcome E req s r s'
| Out_hit lines key c p :
    valid_request E req s lines key ->
    aiCache s !! key = Some c ->
    clock E (S (clock_reads s)) < expiresAt c ->
    AI.user_prefix (AI.userIdOf E req s) = Ok p ->
    r = {| statusCode := 200; setCookie := cookie_set E req s;
           sent := Some (FortuneBody (fortune c) true (js "cache")) |} ->
    s' = {| aiCache := aiCache s; clock_reads := S (S (clock_reads s));
            random_draws := draws_after req s; provider_calls := provider_calls s;
            res := r |} ->
    ai_outcome E req s r s'
| Out_hit_unlogged lines key c e :
    valid_request E req s lines key ->
    aiCache s !! key = Some c ->
    clock E (S (clock_reads s)) < expiresAt c ->
    AI.user_prefix (AI.userIdOf E req s) = Throw e ->
    r = {| statusCode := 200; setCookie := cookie_set E req s;
           sent := Some (fallback_body req) |} ->
    s' = {| aiCache := aiCache s; clock_reads := S (S (clock_reads s));
            random_draws := draws_after req s; provider_calls := provider_calls s;
            res := r |} ->
    ai_outcome E req s r s'
| Out_no_credential lines key :
    valid_request E req s lines key ->
    no_live_entry key (clock E (S (clock_reads s))) s ->
    Diag.has_credential E = false ->
    r = {| statusCode := 200; setCookie := cookie_set E req s;
           sent := Some (fallback_body req) |} ->
    s' = {| aiCache := aiCache s; clock_reads := reads_after_lookup key s;
            random_draws := draws_after req s; provider_calls := provider_calls s;
            res := r |} ->
    ai_outcome E req s r s'
| Out_provider_failed lines key e :
    valid_request E req s lines key ->
    no_live_entry key (clock E (S (clock_reads s))) s ->
    Diag.has_credential E = true ->
    provider_fails (completion E (length (provider_calls s))
                      (AI.prompt (AI.lang_of req) lines)) lines e ->
    r = {| statusCode := 200; setCookie := cookie_set E req s;
           sent := Some (fallback_body req) |} ->
    s' = {| aiCache := aiCache s; clock_reads := reads_after_lookup key s;
            random_draws := draws_after req s;
            provider_calls := AI.prompt (AI.lang_of req) lines :: provider_calls s;
            res := r |} ->
    ai_outcome E req s r s'
| Out_empty lines key :
    valid_request E req s lines key ->
    no_live_entry key (clock E (S (clock_reads s))) s ->
    Diag.has_credential E = true ->
    provider_gives (completion E (length (provider_calls s))
                      (AI.prompt (AI.lang_of req) lines)) lines [] ->
    r = {| statusCode := 502; setCookie := cookie_set E req s;
           sent := Some (ErrorBody (js "Empty AI result")) |} ->
    s' = {| aiCache := aiCache s; clock_reads := reads_after_lookup key s;
            random_draws := draws_after req s;
            provider_calls := AI.prompt (AI.lang_of req) lines :: provider_calls s;
            res := r |} ->
    ai_outcome E req s r s'
| Out_generated lines key text p :
    valid_request E req s lines key ->
    no_live_entry key (clock E (S (clock_reads s))) s ->
    Diag.has_credential E = true ->
    provider_gives (completion E (length (provider_calls s))
                      (AI.prompt (AI.lang_of req) lines)) lines text ->
    text <> [] ->
    AI.user_prefix (AI.userIdOf E req s) = Ok p ->
    r = {| statusCode := 200; setCookie := cookie_set E req s;
           sent := Some (FortuneBody text false (js "openai")) |} ->
    s' = {| aiCache := <[key := {| fortune := text;
                                   expiresAt := clock E (reads_after_lookup key s)
                                                + 26 * 3600 * 1000 |}]> (aiCache s);
            clock_reads := S (S (reads_after_lookup key s));
            random_draws := draws_after req s;
            provider_calls := AI.prompt (AI.lang_of req) lines :: provider_calls s;
            res := r |} ->
    ai_outcome E req s r s'
| Out_stored_unlogged lines key text e :
    valid_request E req s lines key ->
    no_live_entry key (clock E (S (clock_reads s))) s ->
    Diag.has_credential E = true ->
    provider_gives (completion E (length (provider_calls s))
                      (AI.prompt (AI.lang_of req) lines)) lines text ->
    text <> [] ->
    AI.user_prefix (AI.userIdOf E req s) = Throw e ->
    r = {| statusCode := 200; setCookie := cookie_set E req s;
           sent := Some (fallback_body req) |} ->
    s' = {| aiCache := <[key := {| fortune := text;
                                   expiresAt := clock E (reads_after_lookup key s)
                                                + 26 * 3600 * 1000 |}]> (aiCache s);
            clock_reads := S (reads_after_lookup key s);
            random_draws := draws_after req s;
            provider_calls := AI.prompt (AI.lang_of req) lines :: provider_calls s;
            res := r |} ->
    ai_outcome E req s r s'.

(** More sample data. *)
Module Scenario.

(** The provider answers with an object that has no [choices]. *)
Definition env_hollow : env :=
  {| clock := clock Sample.env_ok; randomHex := randomHex Sample.env_ok;
     apiKey := apiKey Sample.env_ok;
     completion := fun _ _ => Ok (JObj [(js "id", JStr (js "cmpl-1"))]) |}.

(** The clock reads 2024-01-01T00:00:00Z first, then two days later. *)
Definition env_later : env :=
  {| clock := fun n => if (n <? 4)%nat then 1704067200000 else 1704240000000;
     randomHex := randomHex Sample.env_ok;
     apiKey := apiKey Sample.env_ok;
     completion := completion Sample.env_ok |}.

(** The clock stands at 2024-01-01T12:30:00.000Z. *)
Definition env_noon : env :=
  {| clock := fun _ => 1704112200000;
     randomHex := randomHex Sample.env_ok;
     apiKey := apiKey Sample.env_ok;
     completion := completion Sample.env_ok |}.

(** [{ "localDate": { "toString": 1 } }]. *)
Definition req_bad_date : AI.request :=
  {| AI.body := JObj [(js "localDate", JObj [(js "toString", JNum (js "1"))])];
     AI.fcid := JUndefined |}.

(** [{ "localDate": "2024-01-01", "lines": 1 }]. *)
Definition req_one_line : AI.request :=
  {| AI.body := JObj [(js "localDate", Sample.day); (js "lines", JNum (js "1"))];
     AI.fcid := JUndefined |}.

(** [{ "localDate": "2024-01-01" }] with [Cookie: fcid=j:123]: the user id
    is the Number 123. *)
Definition req_number_id : AI.request :=
  {| AI.body := JObj [(js "localDate", Sample.day)];
     AI.fcid := JNum (js "123") |}.


(** [{ "localDate": "2024-01-01", "lang": "tr" }]. *)
Definition req_tr : AI.request :=
  {| AI.body := JObj [(js "localDate", Sample.day); (js "lang", JStr (js "tr"))];
     AI.fcid := JUndefined |}.

(** [GET /api/fortune?tz=Mars/Base]. *)
Definition req_mars : Classic.request :=
  {| Classic.user_agent := Some (js "curl/8.5.0");
     Classic.ip := Some (js "203.0.113.7");
     Classic.query_tz := JStr (js "Mars/Base") |}.

(** A host five hours behind UTC. *)
Definition zones_west : Classic.zones :=
  {| Classic.zone := Classic.zone Sample.zones_utc;
     Classic.host_local := fun t => t - 18000000;
     Classic.host_utc := fun w => w + 18000000;
     Classic.format_date := Classic.format_date Sample.zones_utc |}.

(** A host on US Eastern time around the end of daylight saving in 2024:
    four hours behind UTC until 2024-11-03T06:00:00Z and five hours behind
    from then on, so that the wall clock shows the hour from 01:00 to 02:00
    twice; such a reading stands for the earlier of its two instants. *)
Definition zones_dst : Classic.zones :=
  {| Classic.zone := Classic.zone Sample.zones_utc;
     Classic.host_local := fun t =>
       if t <? 1730613600000 then t - 14400000 else t - 18000000;
     Classic.host_utc := fun w =>
       if w <? 1730599200000 then w + 14400000 else w + 18000000;
     Classic.format_date := fun _ => js "2024-11-03" |}.

(** The clock stands at 2024-11-03T00:00:30.000Z. *)
Definition env_autumn : env :=
  {| clock := fun _ => 1730592030000;
     randomHex := randomHex Sample.env_ok;
     apiKey := apiKey Sample.env_ok;
     completion := completion Sample.env_ok |}.

(** The clock stands at 2024-01-01T00:00:00.500Z. *)
Definition env_half : env :=
  {| clock := fun _ => 1704067200500;
     randomHex := randomHex Sample.env_ok;
     apiKey := apiKey Sample.env_ok;
     completion := completion Sample.env_ok |}.

End Scenario.

(** ** Running the handlers symbolically *)

Arguments js : simpl never.

(** Unfolds the monad and the effects, and reads the fields of the states
    built on the way. *)
Ltac mrun :=
  cbv beta iota zeta delta
    [mbind M_bind mret M_ret lift throw try_catch res_status res_json
     res_cookie cache_get cache_set Date_now randomBytes16_hex
     chat_completions_create fst snd negb] in *;
  cbn [aiCache clock_reads random_draws provider_calls res statusCode
       setCookie sent set_cache tick drawn called set_res fresh_response] in *.

(** ** Proofs *)

(** *** The model on concrete inputs *)

(** The hash is the one of Java's [String.hashCode], up to the absolute
    value. *)
Example hashString_abc : Hash.hashString (js "abc") = 96354.
Proof. reflexivity. Qed.

Example hashString_wraps :
  Hash.hashString (js "A small step today becomes a milestone tomorrow.") = 746661899.
Proof. vm_compute. reflexivity. Qed.

Example clampLines_samples :
  AI.clampLines (JNum (js "2")) = Ok 2
  /\ AI.clampLines (JStr (js " 7 lines")) = Ok 2
  /\ AI.clampLines (JNum (js "1.9")) = Ok 1
  /\ AI.clampLines (JNum (js "0")) = Ok 1
  /\ AI.clampLines (JStr (js "-3")) = Ok 1
  /\ AI.clampLines JNull = Ok 1
  /\ AI.clampLines (JArr [JStr (js "2"); JStr (js "x")]) = Ok 2.
Proof. repeat split; vm_compute; reflexivity. Qed.

Example matchLocalDate_samples :
  AI.matchLocalDate (js "2024-01-01") = true
  /\ AI.matchLocalDate (js "2024/01/01") = false
  /\ AI.matchLocalDate (js "abc") = false
  /\ AI.matchLocalDate (js "") = false
  /\ AI.matchLocalDate (js "2024-01-011") = false.
Proof. repeat split; vm_compute; reflexivity. Qed.

(** A line of 141 units is cut to 139 and the ellipsis; one of 140 is
    kept. *)
Example formatFortune_truncates :
  Format.formatFortune (JStr (replicate 141 97%N)) 2 140
  = Ok (replicate 139 97%N ++ js "…")
  /\ Format.formatFortune (JStr (replicate 140 97%N)) 2 140
     = Ok (replicate 140 97%N).
Proof. split; vm_compute; reflexivity. Qed.

(** A request in Turkish to a process without a credential is answered
    with the Turkish fallback line, a request in English with the English
    one. *)
Example fallback_lines :
  sent (fst (AI.serve Sample.env_no_key Scenario.req_tr AI.boot))
  = Some (FortuneBody (js "Bugün açık konuşmak bağınızı onarabilir.") false
            (js "fallback"))
  /\ sent (fst (AI.serve Sample.env_no_key Sample.req_day AI.boot))
     = Some (FortuneBody (js "Speak plainly today; repair begins there.") false
               (js "fallback")).
Proof. split; vm_compute; reflexivity. Qed.

(** [userId.slice(0,8)]: a string and an array have a [slice], a Number, a
    boolean and an object have none. *)
Example user_prefix_samples :
  AI.user_prefix (JStr (js "00112233445566778899aabbccddeeff")) = Ok (js "00112233")
  /\ AI.user_prefix (JArr [JNum (js "1"); JStr (js "b")]) = Ok (js "1,b")
  /\ AI.user_prefix (JNum (js "123"))
     = Throw (TypeError (js "userId.slice is not a function"))
  /\ AI.user_prefix (JBool true)
     = Throw (TypeError (js "userId.slice is not a function"))
  /\ AI.user_prefix (JObj [(js "slice", JNum (js "1"))])
     = Throw (TypeError (js "userId.slice is not a function")).
Proof. repeat split; vm_compute; reflexivity. Qed.

(** With [tz=Mars/Base] the countdown runs from the instant itself, not
    from a wall clock cut to the second: half a second past midnight, 86399
    seconds are left. *)
Example countdown_half_a_second_past_midnight :
  exists f,
    sent (fst (Classic.serve Scenario.env_half Sample.zones_utc Scenario.req_mars AI.boot))
    = Some (ClassicBody f 86399 (js "classic")).
Proof. eexists. vm_compute. reflexivity. Qed.

(** The specification's example: the provider mocked, the same request
    twice. *)
Example generated_then_cached :
  let '(r1, s1) := AI.serve Sample.env_ok Sample.req_day AI.boot in
  let '(r2, s2) := AI.serve Sample.env_ok Sample.req_day_again s1 in
  sent r1 = Some (FortuneBody (js "Speak warmly.
Trust grows slowly.") false (js "openai"))
  /\ sent r2 = Some (FortuneBody (js "Speak warmly.
Trust grows slowly.") true (js "cache"))
  /\ length (provider_calls s2) = 1%nat.
Proof. vm_compute. repeat split; reflexivity. Qed.

Lemma wrap32_range x : - 2 ^ 31 <= wrap32 x < 2 ^ 31.
Proof.
  unfold wrap32.
  pose proof (Z.mod_pos_bound (x + 2 ^ 31) (2 ^ 32) ltac:(lia)). lia.
Qed.

Lemma wrap32_congr x y : (x - y) mod 2 ^ 32 = 0 -> wrap32 x = wrap32 y.
Proof.
  intros H. unfold wrap32. f_equal.
  apply Z.mod_divide in H; [|lia]. destruct H as [k Hk].
  replace (x + 2 ^ 31) with ((y + 2 ^ 31) + k * 2 ^ 32) by lia.
  apply Z.mod_add. lia.
Qed.

Lemma wrap32_spec x : exists k, wrap32 x = x + k * 2 ^ 32.
Proof.
  unfold wrap32. exists (- ((x + 2 ^ 31) / 2 ^ 32)).
  pose proof (Z.div_mod (x + 2 ^ 31) (2 ^ 32) ltac:(lia)). lia.
Qed.

Lemma hash_step_ref h c : Hash.hash_step h c = Hash.ref_step h c.
Proof.
  unfold Hash.hash_step, Hash.ref_step, shl32.
  apply wrap32_congr.
  change (5 mod 32) with 5. rewrite Z.shiftl_mul_pow2 by lia.
  destruct (wrap32_spec h) as [k1 Hk1].
  destruct (wrap32_spec (wrap32 h * 2 ^ 5)) as [k2 Hk2].
  rewrite Hk2, Hk1.
  apply Z.mod_divide; [lia|]. exists (k1 * 2 ^ 5 + k2). lia.
Qed.

(** C4: the implemented hash ([(h << 5) - h + charCode], [h |= 0],
    [Math.abs]) computes exactly the reference rolling hash
    ([h*31 + charCode] wrapped to signed 32 bits, absolute value). *)
Theorem hashString_refines_reference (s : jsstring) :
  Hash.hashString s = Hash.hash_ref s.
Proof.
  unfold Hash.hashString, Hash.hash_ref. f_equal.
  generalize 0. induction s as [|c s IH]; intros h; simpl; [reflexivity|].
  rewrite hash_step_ref. apply IH.
Qed.

Lemma hashString_nonneg s : 0 <= Hash.hashString s.
Proof. unfold Hash.hashString. apply Z.abs_nonneg. Qed.

Lemma select_index_range catalog seed :
  catalog <> [] ->
  0 <= Hash.select_index catalog seed < Z.of_nat (length catalog).
Proof.
  intros Hne. unfold Hash.select_index.
  assert (0 < Z.of_nat (length catalog)) by (destruct catalog; simpl in *; [congruence | lia]).
  pose proof (hashString_nonneg seed).
  rewrite Z.rem_mod_nonneg by lia.
  apply Z.mod_pos_bound. lia.
Qed.

(** C3: for every seed the catalog index [hashString(seed) % fortunes.length]
    lies in [0, catalogLength), so [fortunes[idx]] is an entry of the
    catalog. *)
Theorem fortune_index_in_range (seed : jsstring) :
  0 <= Hash.select_index Hash.fortunes seed < Z.of_nat (length Hash.fortunes)
  /\ is_Some (Hash.fortunes !! Z.to_nat (Hash.select_index Hash.fortunes seed)).
Proof.
  pose proof (select_index_range Hash.fortunes seed ltac:(discriminate)) as H.
  split; [exact H|].
  apply lookup_lt_is_Some. lia.
Qed.

(** *** Strings *)

Lemma js_ellipsis : js "…" = [8230%N].
Proof. reflexivity. Qed.

Lemma slice0_nonneg {A} (l : list A) (e : Z) :
  0 <= e -> slice0 l e = take (Z.to_nat e) l.
Proof.
  intros He. unfold slice0.
  destruct (Z.ltb_spec e 0) as [?|_]; [lia|].
  destruct (Z.le_gt_cases e (Z.of_nat (length l))) as [Hle|Hgt].
  - rewrite Z.min_l by lia. reflexivity.
  - rewrite Z.min_r by lia. rewrite Nat2Z.id.
    rewrite !take_ge by lia. reflexivity.
Qed.

Lemma skip_while_suffix p s : exists pre, s = pre ++ skip_while p s.
Proof.
  induction s as [|c s [pre IH]]; simpl.
  - exists []. reflexivity.
  - destruct (p c).
    + exists (c :: pre). simpl. congruence.
    + exists []. reflexivity.
Qed.

Lemma skip_while_head p s c r : skip_while p s = c :: r -> p c = false.
Proof.
  induction s as [|d s IH]; simpl; [discriminate|].
  destruct (p d) eqn:Hd; [exact IH|].
  intros [= -> _]. exact Hd.
Qed.

Lemma skip_while_fixed p c r : p c = false -> skip_while p (c :: r) = c :: r.
Proof. intros H. simpl. rewrite H. reflexivity. Qed.

Lemma trim_sub s c : c ∈ trim s -> c ∈ s.
Proof.
  unfold trim, trimEnd, trimStart. intros H.
  destruct (skip_while_suffix is_ws s) as [p1 H1].
  destruct (skip_while_suffix is_ws (rev (skip_while is_ws s))) as [p2 H2].
  apply list_elem_of_In in H. apply list_elem_of_In.
  rewrite H1. apply in_or_app. right.
  apply in_rev. rewrite H2. apply in_or_app. right.
  apply in_rev. exact H.
Qed.

Lemma rev_cons_last (s : jsstring) d r : rev s = d :: r -> last s = Some d.
Proof.
  intros H. rewrite <- (rev_involutive s), H. simpl. apply last_snoc.
Qed.

Lemma trimmed_fixed s : trimmed s -> trim s = s.
Proof.
  unfold trimmed, trim, trimEnd, trimStart. intros [Hh Hl].
  destruct s as [|c r]; [reflexivity|].
  rewrite skip_while_fixed by (apply Hh; reflexivity).
  destruct (rev (c :: r)) as [|d r'] eqn:Hrev.
  - apply (f_equal (@length N)) in Hrev. rewrite length_rev in Hrev. discriminate.
  - rewrite skip_while_fixed by (apply Hl; eapply rev_cons_last; exact Hrev).
    rewrite <- Hrev. apply rev_involutive.
Qed.

Lemma trim_trimmed s : trimmed (trim s).
Proof.
  unfold trimmed, trim, trimEnd, trimStart.
  remember (skip_while is_ws s) as s1 eqn:Hs1.
  destruct (skip_while_suffix is_ws (rev s1)) as [p2 H2].
  remember (skip_while is_ws (rev s1)) as s2 eqn:Hs2.
  destruct s2 as [|d r']; [split; intros ?; discriminate|].
  assert (Hd : is_ws d = false) by (eapply skip_while_head; symmetry; exact Hs2).
  split.
  - intros c Hc.
    assert (Hcat : s1 = rev (d :: r') ++ rev p2).
    { rewrite <- (rev_involutive s1), H2, rev_app_distr. reflexivity. }
    destruct (rev (d :: r')) as [|c' r] eqn:Hrev; [discriminate|].
    injection Hc as ->. simpl in Hcat.
    eapply skip_while_head. rewrite <- Hs1. exact Hcat.
  - intros e He. simpl in He. rewrite last_snoc in He. congruence.
Qed.

Lemma split_on_segments sep s :
  Forall (fun l => (sep ∉ l) /\ (forall c, c ∈ l -> c ∈ s)) (split_on sep s).
Proof.
  induction s as [|c r IH]; simpl.
  - constructor; [|constructor]. split; [apply not_elem_of_nil|]. auto.
  - destruct (N.eqb_spec c sep) as [->|Hne].
    + constructor.
      * split; [apply not_elem_of_nil|]. intros ? H. inversion H.
      * eapply Forall_impl; [exact IH|]. simpl. intros l [H1 H2].
        split; [exact H1|]. intros d Hd. right. auto.
    + destruct (split_on sep r) as [|l ls]; simpl.
      * constructor; [|constructor]. split.
        -- intros H. apply list_elem_of_singleton in H. congruence.
        -- intros d Hd. apply list_elem_of_singleton in Hd. subst. left.
      * inversion IH as [|? ? [H1 H2] Hrest]; subst.
        constructor.
        -- split.
           ++ intros H. apply elem_of_cons in H as [H|H]; [congruence|auto].
           ++ intros d Hd. apply elem_of_cons in Hd as [->|Hd]; [left|right; auto].
        -- eapply Forall_impl; [exact Hrest|]. simpl. intros l' [H3 H4].
           split; [exact H3|]. intros d Hd. right. auto.
Qed.

Lemma split_on_free sep l : sep ∉ l -> split_on sep l = [l].
Proof.
  induction l as [|c r IH]; simpl; [reflexivity|].
  intros H. destruct (N.eqb_spec c sep) as [->|Hne].
  - exfalso. apply H. left.
  - rewrite IH; [reflexivity|]. intros Hr. apply H. right. exact Hr.
Qed.

Lemma split_on_app sep l rest :
  sep ∉ l -> split_on sep (l ++ sep :: rest) = l :: split_on sep rest.
Proof.
  induction l as [|c r IH]; simpl.
  - rewrite N.eqb_refl. reflexivity.
  - intros H. destruct (N.eqb_spec c sep) as [->|Hne].
    + exfalso. apply H. left.
    + rewrite IH; [reflexivity|]. intros Hr. apply H. right. exact Hr.
Qed.

Lemma split_on_join sep ls :
  ls <> [] -> Forall (fun l => sep ∉ l) ls ->
  split_on sep (join_with [sep] ls) = ls.
Proof.
  induction ls as [|l rest IH]; [congruence|].
  intros _ HF. inversion HF as [|? ? Hl Hrest]; subst.
  destruct rest as [|l' rest'].
  - simpl. apply split_on_free. exact Hl.
  - change (join_with [sep] (l :: l' :: rest'))
      with (l ++ sep :: join_with [sep] (l' :: rest')).
    rewrite split_on_app by exact Hl.
    rewrite IH; [reflexivity|discriminate|exact Hrest].
Qed.

(** *** The formatter *)

Lemma nonempty_length s : Format.nonempty s = negb (length s =? 0)%nat.
Proof. destruct s; reflexivity. Qed.

Lemma truncLine_cap s : Format.truncLine 140 s = Format.cap_line 140 s.
Proof.
  unfold Format.truncLine, Format.cap_line.
  destruct (Nat.leb_spec (length s) 140) as [Hle|Hgt].
  - destruct (Z.gtb_spec (Z.of_nat (length s)) 140); [lia|reflexivity].
  - destruct (Z.gtb_spec (Z.of_nat (length s)) 140); [|lia].
    rewrite slice0_nonneg by lia. reflexivity.
Qed.

Lemma trimmed_truncLine k :
  k <> [] -> trimmed k -> trimmed (Format.truncLine 140 k).
Proof.
  intros Hne Hk. rewrite truncLine_cap. unfold Format.cap_line.
  destruct (length k <=? 140)%nat; [exact Hk|].
  destruct k as [|c r]; [congruence|].
  rewrite js_ellipsis. destruct Hk as [Hh _]. split.
  - intros c' Hc'. apply Hh. exact Hc'.
  - intros d Hd. rewrite last_snoc in Hd. injection Hd as <-. reflexivity.
Qed.

Lemma lines_of_line c k :
  k ∈ Format.lines_of c ->
  k <> [] /\ trimmed k /\ (LF ∉ k) /\ (forall x, x ∈ k -> x ∈ c).
Proof.
  unfold Format.lines_of. intros Hk.
  apply list_elem_of_In, filter_In in Hk as [Hin Hne].
  apply in_map_iff in Hin as [x [<- Hx]].
  pose proof (split_on_segments LF c) as HF.
  rewrite Forall_forall in HF. apply list_elem_of_In in Hx.
  destruct (HF x Hx) as [Hlf Hsub].
  split; [|split; [|split]].
  - intros E. rewrite E in Hne. discriminate.
  - apply trim_trimmed.
  - intros H. apply Hlf. apply trim_sub. exact H.
  - intros y Hy. apply Hsub. apply trim_sub. exact Hy.
Qed.

Lemma strip_no_CR text : CR ∉ Format.strip text.
Proof.
  unfold Format.strip. intros H. apply trim_sub in H.
  apply list_elem_of_In, filter_In in H as [_ H]. discriminate.
Qed.

Lemma truncLine_line k :
  k <> [] -> trimmed k -> (LF ∉ k) -> (CR ∉ k) ->
  let l := Format.truncLine 140 k in
  (1 <= length l <= 140)%nat /\ (CR ∉ l) /\ (LF ∉ l) /\ trimmed l.
Proof.
  intros Hne Htr Hlf Hcr l.
  assert (Htl : trimmed l) by (apply trimmed_truncLine; assumption).
  subst l. rewrite truncLine_cap in *. unfold Format.cap_line in *.
  destruct (Nat.leb_spec (length k) 140) as [Hle|Hgt].
  - split; [|split; [|split]]; try assumption.
    destruct k; [congruence|]. simpl in *. lia.
  - rewrite js_ellipsis in *.
    split; [|split; [|split]]; try assumption.
    + rewrite length_app, length_take. change (length [8230%N]) with 1%nat. lia.
    + intros H. apply elem_of_app in H as [H|H].
      * apply Hcr. eapply subseteq_take. exact H.
      * apply list_elem_of_singleton in H. discriminate.
    + intros H. apply elem_of_app in H as [H|H].
      * apply Hlf. eapply subseteq_take. exact H.
      * apply list_elem_of_singleton in H. discriminate.
Qed.

(** C5: on every text and every line count, [formatFortune] strips
    carriage returns, trims, splits into lines, trims them and drops the
    empty ones, keeps at most [lines] of them, caps each at 140 code units
    with an ellipsis closing a capped line, and rejoins with newlines: the
    result is what the specification's wording computes, it has at most
    [lines] lines, and each of them is non-empty, trimmed, free of carriage
    returns and at most 140 units long. *)
Theorem formatFortune_shape (text : jsstring) (lines : Z) :
  0 <= lines ->
  let kept := take (Z.to_nat lines) (Format.lines_of (Format.strip text)) in
  let out := map (Format.truncLine 140) kept in
  Format.formatFortune (JStr text) lines 140 = Ok (join_with [LF] out)
  /\ join_with [LF] out = Format.format_spec text (Z.to_nat lines) 140
  /\ (out = [] \/ split_on LF (join_with [LF] out) = out)
  /\ (length out <= Z.to_nat lines)%nat
  /\ Forall (fun l => (1 <= length l <= 140)%nat /\ (CR ∉ l) /\ (LF ∉ l) /\ trimmed l) out
  /\ Forall (fun k => if (length k <=? 140)%nat
                      then Format.truncLine 140 k = k
                      else Format.truncLine 140 k = take 139 k ++ js "…") kept.
Proof.
  intros Hlines kept out.
  assert (Hkept : Forall (fun k => k <> [] /\ trimmed k /\ (LF ∉ k) /\ (CR ∉ k)) kept).
  { apply Forall_forall. intros k Hk. subst kept.
    apply subseteq_take in Hk.
    destruct (lines_of_line _ _ Hk) as (H1 & H2 & H3 & H4).
    split; [exact H1|split; [exact H2|split; [exact H3|]]].
    intros H. apply (strip_no_CR text). apply H4. exact H. }
  assert (Hout : Forall (fun l => (1 <= length l <= 140)%nat
                                  /\ (CR ∉ l) /\ (LF ∉ l) /\ trimmed l) out).
  { subst out. apply Forall_map. eapply Forall_impl; [exact Hkept|].
    intros k (H1 & H2 & H3 & H4). apply truncLine_line; assumption. }
  split; [|split; [|split; [|split; [|split]]]].
  - unfold Format.formatFortune, Format.cleaned.
    replace (ToString (js_or (JStr text) (JStr []))) with (Ok (A:=jsstring) text)
      by (destruct text; reflexivity).
    simpl. destruct (Format.nonempty (Format.strip text)) eqn:Hne; simpl.
    + rewrite slice0_nonneg by lia. reflexivity.
    + subst out kept. destruct (Format.strip text); [|discriminate].
      destruct (Z.to_nat lines); reflexivity.
  - subst out kept. unfold Format.format_spec, Format.lines_of, Format.strip.
    f_equal. rewrite (map_ext _ _ truncLine_cap).
    do 2 f_equal. apply filter_ext. intros l. apply nonempty_length.
  - destruct out as [|l ls] eqn:Ho; [left; reflexivity|right].
    apply split_on_join; [discriminate|].
    eapply Forall_impl; [exact Hout|]. simpl. tauto.
  - subst out kept. rewrite length_map, length_take. lia.
  - exact Hout.
  - apply Forall_forall. intros k _.
    rewrite truncLine_cap. unfold Format.cap_line.
    destruct (length k <=? 140)%nat; reflexivity.
Qed.

(** A text with blanks around it, an empty line, and a third line that
    is dropped. *)
Lemma formatFortune_shape_witness :
  Format.formatFortune (JStr (js "  Speak warmly.
Trust grows slowly.  

x")) 2 140 = Ok (js "Speak warmly.
Trust grows slowly.").
Proof.
  destruct (formatFortune_shape (js "  Speak warmly.
Trust grows slowly.  

x") 2 ltac:(lia)) as [H _].
  exact H.
Defined.

(** *** The AI endpoint *)

Lemma js_fallback_openai : js "fallback" <> js "openai".
Proof. vm_compute. discriminate. Qed.

Lemma js_fallback_cache : js "fallback" <> js "cache".
Proof. vm_compute. discriminate. Qed.

Lemma clampLines_total v l :
  ToString v = Ok l -> exists n, AI.clampLines v = Ok n /\ 1 <= n <= 2.
Proof.
  intros H. unfold AI.clampLines, parseInt10. rewrite H. cbn [mbind result_bind].
  eexists. split; [reflexivity|]. lia.
Qed.

Lemma clampLines_range v n : AI.clampLines v = Ok n -> 1 <= n <= 2.
Proof.
  unfold AI.clampLines. destruct (parseInt10 v) as [o|e]; [|discriminate].
  cbn [mbind result_bind]. intros [= <-]. lia.
Qed.

Lemma localDate_rejected req :
  AI.localDate_of req = JUndefined
  \/ (exists d, ToString (AI.localDate_of req) = Ok d /\ AI.matchLocalDate d = false) ->
  AI.localDateOk (AI.localDate_of req) = Ok false.
Proof.
  unfold AI.localDateOk, js_or. intros [->|(d & Hd & Hm)]; [reflexivity|].
  destruct (truthy (AI.localDate_of req)); [|reflexivity].
  rewrite Hd. cbn. rewrite Hm. reflexivity.
Qed.

Lemma cacheKey_date uid lang theme lines ld key :
  AI.cacheKey uid lang theme lines ld = Ok key -> exists d, ToString ld = Ok d.
Proof.
  unfold AI.cacheKey. destruct (ToString uid); [|discriminate].
  destruct (ToString theme); [|discriminate].
  destruct (ToString ld) as [d|e]; [eauto|discriminate].
Qed.


Lemma normLang_tr v : jsstring_eqb (AI.normLang v) (js "tr") = is_string v (js "tr").
Proof. unfold AI.normLang. destruct (is_string v (js "tr")); vm_compute; reflexivity. Qed.

Lemma is_string_default v :
  is_string (with_default v (JStr (js "en"))) (js "tr") = is_string v (js "tr").
Proof. destruct v; reflexivity. Qed.

Lemma body_lang (b : jsval) :
  opt_chain b (fun o => get_prop o (js "lang")) = get_prop (js_or b (JObj [])) (js "lang").
Proof.
  unfold opt_chain, js_or.
  destruct b; cbn [nullish truthy get_prop own_prop default]; try reflexivity.
  - destruct b; reflexivity.
  - destruct (_ && _); reflexivity.
  - destruct (negb _); reflexivity.
Qed.

Lemma fallbackLine_lang req :
  AI.fallbackLine req
  = if jsstring_eqb (AI.lang_of req) (js "tr") then AI.fallback_tr else AI.fallback_en.
Proof.
  unfold AI.fallbackLine, AI.lang_of, AI.field.
  rewrite normLang_tr, is_string_default, body_lang. reflexivity.
Qed.

Lemma fallback_nonempty req : AI.fallbackLine req <> [].
Proof. unfold AI.fallbackLine. destruct (is_string _ _); vm_compute; discriminate. Qed.

Lemma is_string_iff v lit : is_string v lit = true <-> v = JStr lit.
Proof.
  unfold is_string, jsstring_eqb. destruct v; try (split; [discriminate|congruence]).
  rewrite bool_decide_eq_true. split; congruence.
Qed.

(** The fallback line is the Turkish one exactly when the body's [lang] is
    the string [tr]. *)
Lemma fallbackLine_field req :
  (AI.field req "lang" = JStr (js "tr") ->
   AI.fallbackLine req = js "Bugün açık konuşmak bağınızı onarabilir.")
  /\ (AI.field req "lang" <> JStr (js "tr") ->
      AI.fallbackLine req = js "Speak plainly today; repair begins there.").
Proof.
  unfold AI.fallbackLine, AI.field, AI.fallback_tr, AI.fallback_en. rewrite body_lang.
  destruct (is_string _ _) eqn:Hs.
  - apply is_string_iff in Hs. split; [reflexivity|]. intros Hn. contradiction.
  - split; [|reflexivity]. intros Heq. apply is_string_iff in Heq. congruence.
Qed.

Lemma valid_request_unique E req s l1 k1 l2 k2 :
  valid_request E req s l1 k1 -> valid_request E req s l2 k2 -> l1 = l2 /\ k1 = k2.
Proof.
  intros (H1 & _ & H3) (H1' & _ & H3'). rewrite H1 in H1'. injection H1' as <-.
  rewrite H3 in H3'. injection H3' as <-. auto.
Qed.

Lemma provider_gives_unique a lines t1 t2 :
  provider_gives a lines t1 -> provider_gives a lines t2 -> t1 = t2.
Proof.
  intros (rsp & raw & -> & Ht & Hf) (rsp' & raw' & [= <-] & Ht' & Hf').
  rewrite Ht in Ht'. injection Ht' as <-. rewrite Hf in Hf'. injection Hf' as <-.
  reflexivity.
Qed.

Lemma provider_fails_gives a lines e t :
  provider_fails a lines e -> provider_gives a lines t -> False.
Proof.
  intros [-> |[(rsp & -> & Ht)|(rsp & raw & -> & Ht & Hf)]] (rsp' & raw' & Ha & Ht' & Hf');
    try discriminate; injection Ha as <-; rewrite Ht in Ht'; try discriminate.
  injection Ht' as <-. rewrite Hf in Hf'. discriminate.
Qed.

Lemma live_not_missing key now s c :
  aiCache s !! key = Some c -> now < expiresAt c -> no_live_entry key now s -> False.
Proof.
  intros Hl Hlive [Hn|(c' & Hl' & Hexp)]; rewrite Hl in *; [discriminate|].
  injection Hl' as <-. lia.
Qed.

Lemma serve_all_cons E req reqs s :
  AI.serve_all E (req :: reqs) s = AI.serve_all E reqs (snd (AI.serve E req s)).
Proof. reflexivity. Qed.

Section Paths.
Variable E : env.

Lemma serve_unfold req s :
  AI.serve E req s =
    let s' := snd (try_catch (AI.try_block E req)
                     (fun _ => res_json (FortuneBody (AI.fallbackLine req) false
                                           (js "fallback")))
                     (tick (set_res fresh_response s))) in
    (res s', s').
Proof. reflexivity. Qed.

Lemma userIdOf_start req s :
  AI.userIdOf E req (tick (set_res fresh_response s)) = AI.userIdOf E req s.
Proof. reflexivity. Qed.

(** Whether the log line of a request can be built depends on the user id
    only, once the date has gone into the key. *)
Lemma log_user_prefix uid lang ld d :
  ToString ld = Ok d ->
  (forall p, AI.user_prefix uid = Ok p -> exists l, AI.log_user uid lang ld = Ok l)
  /\ (forall e, AI.user_prefix uid = Throw e -> AI.log_user uid lang ld = Throw e).
Proof.
  intros Hd. unfold AI.log_user. rewrite Hd. split.
  - intros p ->. eexists. reflexivity.
  - intros e ->. reflexivity.
Qed.

(** Every way [generate] can end, with the state it leaves. *)
Lemma generate_paths uid key lang lines ld d s :
  ToString ld = Ok d ->
  let p := AI.prompt lang lines in
  let a := completion E (length (provider_calls s)) p in
  (Diag.has_credential E = false
   /\ AI.generate E uid key lang lines ld s
      = (Throw (Error (js "OPENAI_API_KEY is not set")), s))
  \/ (Diag.has_credential E = true
      /\ ((exists e, provider_fails a lines e
                     /\ AI.generate E uid key lang lines ld s = (Throw e, called p s))
          \/ (provider_gives a lines []
              /\ AI.generate E uid key lang lines ld s
                 = (Ok tt, set_res {| statusCode := 502; setCookie := setCookie (res s);
                                      sent := Some (ErrorBody (js "Empty AI result")) |}
                             (called p s)))
          \/ (exists text,
                provider_gives a lines text /\ text <> []
                /\ ((exists u, AI.user_prefix uid = Ok u
                     /\ AI.generate E uid key lang lines ld s
                        = (Ok tt,
                           set_res {| statusCode := statusCode (res s);
                                      setCookie := setCookie (res s);
                                      sent := Some (FortuneBody text false (js "openai")) |}
                             (tick (tick (set_cache
                                (<[key := {| fortune := text;
                                             expiresAt := clock E (clock_reads s)
                                                          + 26 * 3600 * 1000 |}]>
                                   (aiCache s))
                                (called p s))))))
                    \/ (exists e, AI.user_prefix uid = Throw e
                        /\ AI.generate E uid key lang lines ld s
                           = (Throw e,
                              tick (set_cache
                                (<[key := {| fortune := text;
                                             expiresAt := clock E (clock_reads s)
                                                          + 26 * 3600 * 1000 |}]>
                                   (aiCache s))
                                (called p s)))))))).
Proof.
  intros Hd p a. unfold AI.generate, AI.generateWithOpenAI, Diag.has_credential.
  destruct (apiKey E) as [[|k ks]|]; [left; auto| |left; auto].
  right. split; [reflexivity|]. mrun. fold p. fold a.
  unfold provider_fails, provider_gives.
  destruct a as [rsp|e]; [|left; eauto].
  destruct (AI.completion_text rsp) as [raw|e] eqn:Ht; [|left; eauto 7].
  destruct (Format.formatFortune raw lines 140) as [text|e] eqn:Hf; [|left; eauto 10].
  destruct (Format.nonempty text) eqn:Hne; mrun.
  - right. right. exists text. split; [eauto|]. split; [intros ->; discriminate|].
    destruct (log_user_prefix uid lang ld d Hd) as [Hok Hthrow].
    destruct (AI.user_prefix uid) as [u|e] eqn:Hu.
    + left. exists u. split; [reflexivity|].
      destruct (Hok u eq_refl) as (l & ->). reflexivity.
    + right. exists e. split; [reflexivity|]. rewrite (Hthrow e eq_refl). reflexivity.
  - right. left. destruct text; [|discriminate]. split; [eauto|reflexivity].
Qed.

Lemma getOrSetUserId_paths req s :
  AI.getOrSetUserId E req s
  = (Ok (AI.userIdOf E req s),
     {| aiCache := aiCache s; clock_reads := clock_reads s;
        random_draws := draws_after req s; provider_calls := provider_calls s;
        res := {| statusCode := statusCode (res s);
                  setCookie := match cookie_set E req s with
                               | Some id => Some id
                               | None => setCookie (res s)
                               end;
                  sent := sent (res s) |} |}).
Proof.
  unfold AI.getOrSetUserId, AI.userIdOf, cookie_set, draws_after.
  destruct (truthy (AI.fcid req)); mrun; [|reflexivity].
  destruct s as [m n d p [st ck b]]; reflexivity.
Qed.

(** The lookup: a live entry is served, if the log line can be built;
    otherwise [generate] runs, after one more reading of the clock when
    the key had an entry. *)
Lemma respond_paths uid key lang lines ld d s :
  ToString ld = Ok d ->
  (exists c, aiCache s !! key = Some c /\ clock E (clock_reads s) < expiresAt c
             /\ ((exists u, AI.user_prefix uid = Ok u
                  /\ AI.respond E uid key lang lines ld s
                     = (Ok tt, set_res {| statusCode := statusCode (res s);
                                          setCookie := setCookie (res s);
                                          sent := Some (FortuneBody (fortune c) true
                                                          (js "cache")) |} (tick s)))
                 \/ (exists e, AI.user_prefix uid = Throw e
                     /\ AI.respond E uid key lang lines ld s = (Throw e, tick s))))
  \/ (no_live_entry key (clock E (clock_reads s)) s
      /\ AI.respond E uid key lang lines ld s
         = AI.generate E uid key lang lines ld
             {| aiCache := aiCache s;
                clock_reads := match aiCache s !! key with
                               | Some _ => S (clock_reads s)
                               | None => clock_reads s
                               end;
                random_draws := random_draws s; provider_calls := provider_calls s;
                res := res s |}).
Proof.
  intros Hd. unfold AI.respond, no_live_entry. mrun.
  destruct (aiCache s !! key) as [c|] eqn:Hlook; mrun.
  - destruct (Z.gtb_spec (expiresAt c) (clock E (clock_reads s))) as [Hlive|Hexp]; mrun.
    + left. exists c. split; [reflexivity|]. split; [exact Hlive|].
      destruct (log_user_prefix uid lang ld d Hd) as [Hok Hthrow].
      destruct (AI.user_prefix uid) as [u|e] eqn:Hu.
      * left. exists u. split; [reflexivity|].
        destruct (Hok u eq_refl) as (l & ->). reflexivity.
      * right. exists e. split; [reflexivity|]. rewrite (Hthrow e eq_refl). reflexivity.
    + right. split; [right; exists c; split; [reflexivity|lia]|reflexivity].
  - right. split; [left; reflexivity|]. destruct s; reflexivity.
Qed.

(** Every request takes one of the paths. *)
Lemma serve_outcome req s :
  ai_outcome E req s (fst (AI.serve E req s)) (snd (AI.serve E req s)).
Proof.
  rewrite serve_unfold. unfold AI.try_block. mrun.
  destruct (AI.clampLines (AI.lines_of req)) as [lines|e] eqn:H1; mrun;
    [|eapply Out_unconvertible; [left; exact H1|reflexivity|reflexivity]].
  destruct (AI.localDateOk (AI.localDate_of req)) as [[|]|e] eqn:H2; mrun;
    [|eapply Out_rejected; [exact H1|exact H2|reflexivity|reflexivity]
     |eapply Out_unconvertible; [right; split; [eauto|exact H2]|reflexivity|reflexivity]].
  rewrite getOrSetUserId_paths. mrun. rewrite userIdOf_start.
  assert (Hck : match cookie_set E req (tick (set_res fresh_response s)) with
                | Some id => Some id
                | None => None
                end = cookie_set E req s)
    by (unfold cookie_set; destruct (truthy (AI.fcid req)); reflexivity).
  change (draws_after req (tick (set_res fresh_response s))) with (draws_after req s).
  cbn [setCookie fresh_response]. rewrite Hck. clear Hck.
  destruct (AI.cacheKey (AI.userIdOf E req s) (AI.lang_of req) (AI.theme_of req) lines
              (AI.localDate_of req)) as [key|e] eqn:H3; mrun;
    [|eapply Out_no_key; [exact H1|exact H2|exact H3|reflexivity|reflexivity]].
  assert (Hv : valid_request E req s lines key) by (split; [exact H1|split; [exact H2|exact H3]]).
  destruct (cacheKey_date _ _ _ _ _ _ H3) as (d & Hd).
  match goal with |- context [AI.respond E ?uid key ?lang lines ?ld ?s1] =>
    destruct (respond_paths uid key lang lines ld d s1 Hd)
      as [(c & Hl & Hlive & [(u & Hu & ->)|(e & Hu & ->)])|(Hmiss & ->)]
  end; mrun.
  - eapply Out_hit; [exact Hv|exact Hl|exact Hlive|exact Hu|reflexivity|reflexivity].
  - eapply Out_hit_unlogged; [exact Hv|exact Hl|exact Hlive|exact Hu|reflexivity|reflexivity].
  - cbn [aiCache clock_reads set_res tick] in Hmiss.
    match goal with |- context [AI.generate E ?uid key ?lang lines ?ld ?sg] =>
      destruct (generate_paths uid key lang lines ld d sg Hd)
        as [(Hk & ->)|(Hk & [(e & Hp & ->)|[(Hp & ->)
              |(text & Hp & Hne & [(u & Hu & ->)|(e & Hu & ->)])]])]
    end; mrun; cbn [provider_calls] in *.
    + eapply Out_no_credential; [exact Hv|exact Hmiss|exact Hk|reflexivity|].
      unfold reads_after_lookup. destruct (aiCache s !! key); reflexivity.
    + eapply Out_provider_failed; [exact Hv|exact Hmiss|exact Hk|exact Hp|reflexivity|].
      unfold reads_after_lookup. destruct (aiCache s !! key); reflexivity.
    + eapply Out_empty; [exact Hv|exact Hmiss|exact Hk|exact Hp|reflexivity|].
      unfold reads_after_lookup. destruct (aiCache s !! key); reflexivity.
    + eapply Out_generated;
        [exact Hv|exact Hmiss|exact Hk|exact Hp|exact Hne|exact Hu|reflexivity|].
      unfold reads_after_lookup. destruct (aiCache s !! key); reflexivity.
    + eapply Out_stored_unlogged;
        [exact Hv|exact Hmiss|exact Hk|exact Hp|exact Hne|exact Hu|reflexivity|].
      unfold reads_after_lookup. destruct (aiCache s !! key); reflexivity.
Qed.

(** The paths exclude one another: the relation is a function of the
    request and the state. *)
Lemma ai_outcome_functional req s r1 s1 r2 s2 :
  ai_outcome E req s r1 s1 -> ai_outcome E req s r2 s2 -> r1 = r2 /\ s1 = s2.
Proof.
  intros H1 H2.
  destruct H1; destruct H2; subst;
    unfold valid_request, provider_gives, provider_fails, no_live_entry in *;
    repeat match goal with
           | H : _ /\ _ |- _ => destruct H
           | H : exists _, _ |- _ => destruct H
           | H : _ \/ _ |- _ => destruct H
           end;
    first [split; congruence
          |exfalso; congruence
          |exfalso;
           match goal with
           | Ha : aiCache s !! ?k = Some ?c, Hb : aiCache s !! ?k' = Some ?c' |- _ =>
             assert (c = c') by congruence; subst; lia
           end].
Qed.

(** A request whose conditions are those of a path is answered as the
    path says. *)
Lemma serve_by_path req s r s' : ai_outcome E req s r s' -> AI.serve E req s = (r, s').
Proof.
  intros H.
  destruct (ai_outcome_functional req s _ _ _ _ (serve_outcome req s) H) as [Hr Hs].
  rewrite (surjective_pairing (AI.serve E req s)), Hr, Hs. reflexivity.
Qed.
End Paths.

(** *** The classic endpoint *)

Lemma catalog_entry seed :
  exists x, Classic.array_get Hash.fortunes (Hash.select_index Hash.fortunes seed) = Some x
            /\ x ∈ Hash.fortunes.
Proof.
  pose proof (select_index_range Hash.fortunes seed ltac:(discriminate)) as Hidx.
  unfold Classic.array_get.
  destruct (Z.ltb_spec (Hash.select_index Hash.fortunes seed) 0) as [?|_]; [lia|].
  destruct (lookup_lt_is_Some_2 Hash.fortunes
              (Z.to_nat (Hash.select_index Hash.fortunes seed)) ltac:(lia)) as [x Hx].
  exists x. split; [exact Hx|]. eapply list_elem_of_lookup_2. exact Hx.
Qed.

Section ClassicPaths.
Variable E : env.
Variable T : Classic.zones.

Lemma getTodayDate_known tz s off :
  Classic.resolveZone T tz = Ok off ->
  Classic.getTodayDate E T tz s
  = (Ok (Classic.format_date T (clock E (clock_reads s) + off (clock E (clock_reads s)))),
     tick s).
Proof. intros Hz. unfold Classic.getTodayDate. mrun. rewrite Hz. mrun. reflexivity. Qed.

Lemma getTodayDate_unknown tz s e :
  Classic.resolveZone T tz = Throw e ->
  Classic.getTodayDate E T tz s
  = (Ok (Classic.format_date T (Classic.host_local T (clock E (clock_reads s)))), tick s).
Proof. intros Hz. unfold Classic.getTodayDate. mrun. rewrite Hz. mrun. reflexivity. Qed.

(** The request whose [tz] names a zone: two readings of the clock. *)
Lemma classic_known_zone req s off :
  Classic.resolveZone T (js_or (Classic.query_tz req) (JStr (js "UTC"))) = Ok off ->
  let t0 := clock E (clock_reads s) in
  let t1 := clock E (S (clock_reads s)) in
  let seed := Classic.format_date T (t0 + off t0) ++ js "|"
              ++ Classic.or_empty (Classic.ip req) ++ js "|"
              ++ Classic.or_empty (Classic.user_agent req) in
  let local := Classic.host_utc T (1000 * ((t1 + off t1) / 1000)) in
  let r := {| statusCode := 200; setCookie := None;
              sent := Some (ClassicBody
                              (Classic.array_get Hash.fortunes
                                 (Hash.select_index Hash.fortunes seed))
                              (Z.max 0 ((Classic.setHours24 T local - local) / 1000))
                              (js "classic")) |} in
  Classic.serve E T req s = (r, set_res r (tick (tick s))).
Proof.
  intros Hz t0 t1 seed local r.
  unfold Classic.serve, Classic.api_fortune, Classic.getTodayDate,
    Classic.secondsUntilNext, Classic.localDate.
  mrun. rewrite Hz. mrun. reflexivity.
Qed.

(** The request whose [tz] names no zone: three readings of the clock. *)
Lemma classic_unknown_zone req s e :
  Classic.resolveZone T (js_or (Classic.query_tz req) (JStr (js "UTC"))) = Throw e ->
  let t0 := clock E (clock_reads s) in
  let t2 := clock E (S (S (clock_reads s))) in
  let seed := Classic.format_date T (Classic.host_local T t0) ++ js "|"
              ++ Classic.or_empty (Classic.ip req) ++ js "|"
              ++ Classic.or_empty (Classic.user_agent req) in
  let r := {| statusCode := 200; setCookie := None;
              sent := Some (ClassicBody
                              (Classic.array_get Hash.fortunes
                                 (Hash.select_index Hash.fortunes seed))
                              (Z.max 0 ((Classic.setHours24 T t2 - t2) / 1000))
                              (js "classic")) |} in
  Classic.serve E T req s = (r, set_res r (tick (tick (tick s)))).
Proof.
  intros Hz t0 t2 seed r.
  unfold Classic.serve, Classic.api_fortune, Classic.getTodayDate,
    Classic.secondsUntilNext, Classic.localDate.
  mrun. rewrite Hz. mrun. reflexivity.
Qed.

(** On a host at a fixed offset, the time left from a wall-clock reading
    of [q] whole seconds is the rest of the day of [q]. *)
Lemma countdown_fixed_known c q :
  Classic.fixed_offset T c ->
  let local := Classic.host_utc T (1000 * q) in
  Z.max 0 ((Classic.setHours24 T local - local) / 1000) = 86400 - q mod 86400.
Proof.
  intros Hfix local. unfold Classic.setHours24, local.
  rewrite !(proj2 (Hfix _)), (proj1 (Hfix _)).
  replace (1000 * q - c + c) with (1000 * q) by lia.
  replace (1000 * q / 86400000) with (q / 86400)
    by (change 86400000 with (1000 * 86400); rewrite Z.div_mul_cancel_l; lia).
  pose proof (Z.div_mod q 86400 ltac:(lia)) as Hq.
  pose proof (Z.mod_pos_bound q 86400 ltac:(lia)) as Hm.
  replace ((q / 86400 + 1) * 86400000 - c - (1000 * q - c))
    with ((86400 - q mod 86400) * 1000) by lia.
  rewrite Z.div_mul by lia. lia.
Qed.

(** On a host at a fixed offset, the time left from an instant is the rest
    of the host's day, in whole seconds. *)
Lemma countdown_fixed_unknown c t :
  Classic.fixed_offset T c ->
  Z.max 0 ((Classic.setHours24 T t - t) / 1000)
  = (86400000 - (t + c) mod 86400000) / 1000.
Proof.
  intros Hfix. unfold Classic.setHours24.
  rewrite (proj2 (Hfix _)), (proj1 (Hfix _)).
  pose proof (Z.div_mod (t + c) 86400000 ltac:(lia)) as Hq.
  pose proof (Z.mod_pos_bound (t + c) 86400000 ltac:(lia)) as Hm.
  replace (((t + c) / 86400000 + 1) * 86400000 - c - t)
    with (86400000 - (t + c) mod 86400000) by lia.
  apply Z.max_r. apply Z.div_pos; lia.
Qed.
End ClassicPaths.

(** *** The AI endpoint: main results *)

(** A request answered with source [openai] has taken the generation path
    to its end. *)
Lemma generated_inv E req s f :
  sent (fst (AI.serve E req s)) = Some (FortuneBody f false (js "openai")) ->
  exists lines key p,
    valid_request E req s lines key
    /\ f <> []
    /\ AI.user_prefix (AI.userIdOf E req s) = Ok p
    /\ snd (AI.serve E req s)
       = {| aiCache := <[key := {| fortune := f;
                                   expiresAt := clock E (reads_after_lookup key s)
                                                + 26 * 3600 * 1000 |}]> (aiCache s);
            clock_reads := S (S (reads_after_lookup key s));
            random_draws := draws_after req s;
            provider_calls := AI.prompt (AI.lang_of req) lines :: provider_calls s;
            res := {| statusCode := 200; setCookie := cookie_set E req s;
                      sent := Some (FortuneBody f false (js "openai")) |} |}.
Proof.
  destruct (serve_outcome E req s)
    as [e _ Hr _|lines _ _ Hr _|lines e _ _ _ Hr _|lines key c p _ _ _ _ Hr _
       |lines key c e _ _ _ _ Hr _|lines key _ _ _ Hr _|lines key e _ _ _ _ Hr _
       |lines key _ _ _ _ Hr _|lines key text p Hv _ _ _ Hne Hu Hr Hs
       |lines key text e _ _ _ _ _ _ Hr _];
    rewrite Hr; cbn [sent]; unfold fallback_body; intros H;
    try discriminate H;
    try (destruct js_fallback_openai;
         exact (f_equal (fun o => match o with
                                  | Some (FortuneBody _ _ src) => src
                                  | _ => []
                                  end) H)).
  injection H as <-. exists lines, key, p. rewrite Hs, Hr.
  split; [exact Hv|]. split; [exact Hne|]. split; [exact Hu|reflexivity].
Qed.

(** An entry stored by one request is served to another request with the
    same key, while it lives. *)
Lemma shared_entry E req1 req2 s f l1 l2 key p :
  sent (fst (AI.serve E req1 s)) = Some (FortuneBody f false (js "openai")) ->
  valid_request E req1 s l1 key ->
  valid_request E req2 (snd (AI.serve E req1 s)) l2 key ->
  AI.user_prefix (AI.userIdOf E req2 (snd (AI.serve E req1 s))) = Ok p ->
  clock E (S (clock_reads (snd (AI.serve E req1 s))))
  < clock E (clock_reads (snd (AI.serve E req1 s)) - 2) + 26 * 3600 * 1000 ->
  let '(r2, s2) := AI.serve E req2 (snd (AI.serve E req1 s)) in
  statusCode r2 = 200
  /\ sent r2 = Some (FortuneBody f true (js "cache"))
  /\ provider_calls s2 = provider_calls (snd (AI.serve E req1 s))
  /\ aiCache s2 = aiCache (snd (AI.serve E req1 s)).
Proof.
  intros Hgen Hv1 Hv2 Hu Httl.
  destruct (generated_inv E req1 s f Hgen) as (l & k & p1 & Hv & _ & _ & Hs1).
  destruct (valid_request_unique _ _ _ _ _ _ _ Hv1 Hv) as (<- & <-).
  set (s1 := snd (AI.serve E req1 s)) in *.
  set (c := {| fortune := f;
               expiresAt := clock E (reads_after_lookup key s) + 26 * 3600 * 1000 |}).
  assert (Hl : aiCache s1 !! key = Some c)
    by (rewrite Hs1; cbn [aiCache]; apply lookup_insert_eq).
  assert (Hlive : clock E (S (clock_reads s1)) < expiresAt c).
  { rewrite Hs1 in Httl. cbn [clock_reads] in Httl.
    replace (S (S (reads_after_lookup key s)) - 2)%nat with (reads_after_lookup key s)
      in Httl by lia.
    rewrite Hs1. exact Httl. }
  rewrite (serve_by_path E req2 s1 _ _
             (Out_hit E req2 s1 _ _ l2 key c p Hv2 Hl Hlive Hu eq_refl eq_refl)).
  cbn. auto.
Qed.





(** C2, as the code has it: when [lines] converts to a string without
    throwing (it is then clamped to 1 or 2), and [localDate] is absent or converts, without throwing, to
    a string that does not match [^\d{4}-\d{2}-\d{2}$], the answer is status
    400 with [{ error: "localDate (YYYY-MM-DD) is required" }]; no cookie is
    set, the cache is neither consulted nor changed, and the provider is
    not called. *)
Theorem invalid_localDate_rejected (E : env) (req : AI.request) (s : hstate)
    (l : jsstring) :
  ToString (AI.lines_of req) = Ok l ->
  AI.localDate_of req = JUndefined
  \/ (exists d, ToString (AI.localDate_of req) = Ok d /\ AI.matchLocalDate d = false) ->
  let r := {| statusCode := 400; setCookie := None;
              sent := Some (ErrorBody (js "localDate (YYYY-MM-DD) is required")) |} in
  AI.serve E req s = (r, set_res r (tick s))
  /\ (forall m, fst (AI.serve E req (set_cache m s)) = r)
  /\ aiCache (snd (AI.serve E req s)) = aiCache s
  /\ provider_calls (snd (AI.serve E req s)) = provider_calls s.
Proof.
  intros Hl H2 r. apply localDate_rejected in H2.
  destruct (clampLines_total _ _ Hl) as (lines & H1 & _).
  assert (Hs : forall s0, AI.serve E req s0 = (r, set_res r (tick s0)))
    by (intros s0; apply serve_by_path;
        exact (Out_rejected E req s0 _ _ lines H1 H2 eq_refl eq_refl)).
  split; [apply Hs|]. split; [intros m; rewrite Hs; reflexivity|].
  rewrite Hs. split; reflexivity.
Qed.

(** A body without [localDate], and a date with slashes. *)
Lemma invalid_localDate_rejected_witness :
  fst (AI.serve Sample.env_ok Sample.req_no_date AI.boot)
  = {| statusCode := 400; setCookie := None;
       sent := Some (ErrorBody (js "localDate (YYYY-MM-DD) is required")) |}
  /\ fst (AI.serve Sample.env_ok Sample.req_slashes AI.boot)
     = {| statusCode := 400; setCookie := None;
          sent := Some (ErrorBody (js "localDate (YYYY-MM-DD) is required")) |}.
Proof.
  split.
  - destruct (invalid_localDate_rejected Sample.env_ok Sample.req_no_date AI.boot
                (js "2")) as [H _].
    + vm_compute. reflexivity.
    + left. vm_compute. reflexivity.
    + rewrite H. reflexivity.
  - destruct (invalid_localDate_rejected Sample.env_ok Sample.req_slashes AI.boot
                (js "2")) as [H _].
    + vm_compute. reflexivity.
    + right. exists (js "2024/01/01"). split; vm_compute; reflexivity.
    + rewrite H. reflexivity.
Defined.

(** C2 as stated fails: with [{ "lines": { "toString": 1 } }] the body has
    no [localDate], yet [parseInt(lines, 10)] throws before the validation
    and the answer is the fallback, with status 200. *)
Lemma bad_lines_not_rejected :
  AI.localDate_of Sample.req_bad_lines = JUndefined
  /\ fst (AI.serve Sample.env_ok Sample.req_bad_lines AI.boot)
     = {| statusCode := 200; setCookie := None;
          sent := Some (FortuneBody AI.fallback_en false (js "fallback")) |}.
Proof. split; vm_compute; reflexivity. Qed.

(** The causes that the specification names.  A valid request whose key
    has no live entry, on a process without a credential: the answer is
    the fallback, and the provider is not called. *)
Lemma missing_credential_falls_back E req s lines key :
  valid_request E req s lines key ->
  no_live_entry key (clock E (S (clock_reads s))) s ->
  Diag.has_credential E = false ->
  let r := {| statusCode := 200; setCookie := cookie_set E req s;
              sent := Some (FortuneBody (AI.fallbackLine req) false (js "fallback")) |} in
  AI.serve E req s
  = (r, {| aiCache := aiCache s; clock_reads := reads_after_lookup key s;
           random_draws := draws_after req s; provider_calls := provider_calls s;
           res := r |}).
Proof.
  intros Hv Hm Hk r. apply serve_by_path.
  exact (Out_no_credential E req s _ _ lines key Hv Hm Hk eq_refl eq_refl).
Qed.

(** The provider rejects the call, or its response is [null] or
    [undefined], or its content cannot be converted to a string: the
    answer is the fallback, and the call is recorded. *)
Lemma provider_error_falls_back E req s lines key e :
  valid_request E req s lines key ->
  no_live_entry key (clock E (S (clock_reads s))) s ->
  Diag.has_credential E = true ->
  provider_fails (completion E (length (provider_calls s))
                    (AI.prompt (AI.lang_of req) lines)) lines e ->
  let r := {| statusCode := 200; setCookie := cookie_set E req s;
              sent := Some (FortuneBody (AI.fallbackLine req) false (js "fallback")) |} in
  AI.serve E req s
  = (r, {| aiCache := aiCache s; clock_reads := reads_after_lookup key s;
           random_draws := draws_after req s;
           provider_calls := AI.prompt (AI.lang_of req) lines :: provider_calls s;
           res := r |}).
Proof.
  intros Hv Hm Hk Hp r. apply serve_by_path.
  exact (Out_provider_failed E req s _ _ lines key e Hv Hm Hk Hp eq_refl eq_refl).
Qed.

(** C6: whenever the [try] block throws, at whatever point (a missing
    credential and a failing provider are the lemmas
    [missing_credential_falls_back] and [provider_error_falls_back]), the
    answer has status 200, source [fallback] and a static line that is
    not empty: [Bugün açık konuşmak bağınızı onarabilir.] when the [lang]
    of the body is the string [tr], and [Speak plainly today; repair
    begins there.] in every other case.  The catch block leaves the cache
    as the [try] block left it. *)
Theorem thrown_error_falls_back (E : env) (req : AI.request) (s : hstate) e s' :
  AI.try_block E req (tick (set_res fresh_response s)) = (Throw e, s') ->
  let '(r, s'') := AI.serve E req s in
  statusCode r = 200
  /\ (exists line,
        sent r = Some (FortuneBody line false (js "fallback"))
        /\ line <> []
        /\ (AI.field req "lang" = JStr (js "tr") ->
            line = js "Bugün açık konuşmak bağınızı onarabilir.")
        /\ (AI.field req "lang" <> JStr (js "tr") ->
            line = js "Speak plainly today; repair begins there."))
  /\ aiCache s'' = aiCache s'.
Proof.
  intros Hthrow. pose proof (serve_outcome E req s) as Hout.
  rewrite serve_unfold in *. mrun. rewrite Hthrow in *. mrun.
  split; [|split; [|reflexivity]].
  - destruct Hout
      as [? _ Hr _|? _ _ Hr _|? ? _ _ _ Hr _|? ? ? ? _ _ _ _ Hr _
         |? ? ? ? _ _ _ _ Hr _|? ? _ _ _ Hr _|? ? ? _ _ _ _ Hr _
         |? ? _ _ _ _ Hr _|? ? ? ? _ _ _ _ _ _ Hr _
         |? ? ? ? _ _ _ _ _ _ Hr _];
      first [exact (f_equal statusCode Hr)
            |discriminate (f_equal sent Hr)].
  - exists (AI.fallbackLine req). split; [reflexivity|].
    split; [apply fallback_nonempty|]. exact (fallbackLine_field req).
Qed.

(** A request in Turkish to a process without a credential:
    [generateWithOpenAI] throws, and the answer is the Turkish line. *)
Lemma thrown_error_falls_back_witness :
  let '(r, s'') := AI.serve Sample.env_no_key Scenario.req_tr AI.boot in
  statusCode r = 200
  /\ (exists line,
        sent r = Some (FortuneBody line false (js "fallback"))
        /\ line <> []
        /\ (AI.field Scenario.req_tr "lang" = JStr (js "tr") ->
            line = js "Bugün açık konuşmak bağınızı onarabilir.")
        /\ (AI.field Scenario.req_tr "lang" <> JStr (js "tr") ->
            line = js "Speak plainly today; repair begins there."))
  /\ aiCache s''
     = aiCache (snd (AI.try_block Sample.env_no_key Scenario.req_tr
                       (tick (set_res fresh_response AI.boot)))).
Proof.
  apply (thrown_error_falls_back Sample.env_no_key Scenario.req_tr AI.boot
           (Error (js "OPENAI_API_KEY is not set"))
           (snd (AI.try_block Sample.env_no_key Scenario.req_tr
                   (tick (set_res fresh_response AI.boot))))).
  vm_compute. reflexivity.
Defined.

(** C7: on the generation path (the request is valid and its key has no
    live entry), when the provider's text formats to the empty string the
    answer is status 502 with [{ error: "Empty AI result" }], which is not
    the 400 of a rejected request, and the cache is left as it was. *)
Theorem empty_result_is_502 (E : env) (req : AI.request) (s : hstate)
    lines key rsp raw k ks :
  AI.clampLines (AI.lines_of req) = Ok lines ->
  AI.localDateOk (AI.localDate_of req) = Ok true ->
  AI.cacheKey (AI.userIdOf E req s) (AI.lang_of req) (AI.theme_of req) lines
    (AI.localDate_of req) = Ok key ->
  aiCache s !! key = None
  \/ (exists c, aiCache s !! key = Some c /\ expiresAt c <= clock E (S (clock_reads s))) ->
  apiKey E = Some (k :: ks) ->
  completion E (length (provider_calls s)) (AI.prompt (AI.lang_of req) lines) = Ok rsp ->
  AI.completion_text rsp = Ok raw ->
  Format.formatFortune raw lines 140 = Ok [] ->
  let '(r, s') := AI.serve E req s in
  statusCode r = 502
  /\ sent r = Some (ErrorBody (js "Empty AI result"))
  /\ aiCache s' = aiCache s
  /\ statusCode r <> 400.
Proof.
  intros H1 H2 H3 Hm Hk Ha Ht Hf.
  assert (Hcred : Diag.has_credential E = true)
    by (unfold Diag.has_credential; rewrite Hk; reflexivity).
  assert (Hp : provider_gives (completion E (length (provider_calls s))
                                 (AI.prompt (AI.lang_of req) lines)) lines [])
    by (exists rsp, raw; auto).
  rewrite (serve_by_path E req s _ _
             (Out_empty E req s _ _ lines key (conj H1 (conj H2 H3)) Hm Hcred Hp
                eq_refl eq_refl)).
  cbn. repeat split. discriminate.
Qed.

(** The provider answers with blanks. *)
Lemma empty_result_is_502_witness :
  let '(r, s') := AI.serve Sample.env_blank Sample.req_day AI.boot in
  statusCode r = 502
  /\ sent r = Some (ErrorBody (js "Empty AI result"))
  /\ aiCache s' = aiCache AI.boot
  /\ statusCode r <> 400.
Proof.
  eapply (empty_result_is_502 Sample.env_blank Sample.req_day AI.boot 2).
  - vm_compute. reflexivity.
  - vm_compute. reflexivity.
  - vm_compute. reflexivity.
  - left. vm_compute. reflexivity.
  - vm_compute. reflexivity.
  - vm_compute. reflexivity.
  - vm_compute. reflexivity.
  - vm_compute. reflexivity.
Defined.

(** What a request does to the cache: nothing, or one store, dated by the
    reading of the clock that follows the lookup. *)
Lemma serve_cache_step E req s :
  let s' := snd (AI.serve E req s) in
  (clock_reads s < clock_reads s')%nat
  /\ (aiCache s' = aiCache s
      \/ exists key text i,
           aiCache s' = <[key := {| fortune := text;
                                    expiresAt := clock E i + 26 * 3600 * 1000 |}]>
                          (aiCache s)
           /\ (clock_reads s < i)%nat
           /\ (clock_reads s' = S (S i)
               \/ (clock_reads s' = S i
                   /\ exists e, AI.user_prefix (AI.userIdOf E req s) = Throw e))).
Proof.
  assert (Hreads : forall key, (clock_reads s < reads_after_lookup key s)%nat)
    by (intros key; unfold reads_after_lookup; destruct (aiCache s !! key); lia).
  destruct (serve_outcome E req s)
    as [e _ _ Hs|lines _ _ _ Hs|lines e _ _ _ _ Hs|lines key c p _ _ _ _ _ Hs
       |lines key c e _ _ _ _ _ Hs|lines key _ _ _ _ Hs|lines key e _ _ _ _ _ Hs
       |lines key _ _ _ _ _ Hs|lines key text p _ _ _ _ _ _ _ Hs
       |lines key text e _ _ _ _ _ Hu _ Hs];
    cbv zeta; rewrite Hs; cbn [aiCache clock_reads set_res tick];
    pose proof (Hreads key) as Hkey || idtac;
    try (split; [lia|left; reflexivity]).
  - split; [lia|]. right. exists key, text, (reads_after_lookup key s). auto.
  - split; [lia|]. right. exists key, text, (reads_after_lookup key s). eauto 6.
Qed.

Lemma entries_dated_step E req s :
  AI.entries_dated E s -> AI.entries_dated E (snd (AI.serve E req s)).
Proof.
  intros Hinv k c.
  destruct (serve_cache_step E req s) as (Hclk & [-> | (key & text & i & -> & Hi & Hend)]).
  - intros Hk. destruct (Hinv k c Hk) as (j & Hj & He). exists j. split; [lia|exact He].
  - rewrite lookup_insert. case_decide as Hkey.
    + intros [= <-]. exists i. split; [|reflexivity].
      destruct Hend as [-> |(-> & _)]; lia.
    + intros Hk. destruct (Hinv k c Hk) as (j & Hj & He). exists j. split; [lia|exact He].
Qed.

Lemma entries_dated_all E reqs s :
  AI.entries_dated E s -> AI.entries_dated E (AI.serve_all E reqs s).
Proof.
  revert s. induction reqs as [|req reqs IH]; intros s Hinv; [exact Hinv|].
  apply IH, entries_dated_step, Hinv.
Qed.

Lemma entries_dated_boot E : AI.entries_dated E AI.boot.
Proof. intros k c H. cbn in H. rewrite lookup_empty in H. discriminate. Qed.

(** C8: the TTL is 26 hours whatever [localDate] is; a request either
    leaves the cache as it was or stores one entry that expires 26 hours
    after the reading of the clock taken by the store, which is the last
    reading of the request but one -- or the last one, when the log line
    that follows the store throws; and after any sequence of requests
    served by a process, every entry of the cache expires 26 hours after a
    reading of the clock that was taken. *)
Theorem entries_expire_after_ttl (E : env) :
  (forall localDate, AI.ttlMsFromLocalDate localDate = 26 * 3600 * 1000)
  /\ (forall req s,
        let s' := snd (AI.serve E req s) in
        aiCache s' = aiCache s
        \/ exists key text i,
             aiCache s' = <[key := {| fortune := text;
                                      expiresAt := clock E i + 26 * 3600 * 1000 |}]>
                            (aiCache s)
             /\ (clock_reads s < i)%nat
             /\ (clock_reads s' = S (S i)
                 \/ (clock_reads s' = S i
                     /\ exists e, AI.user_prefix (AI.userIdOf E req s) = Throw e)))
  /\ (forall reqs k c,
        aiCache (AI.serve_all E reqs AI.boot) !! k = Some c ->
        exists i, (i < clock_reads (AI.serve_all E reqs AI.boot))%nat
                  /\ expiresAt c = clock E i + 26 * 3600 * 1000).
Proof.
  split; [reflexivity|]. split.
  - intros req s. apply serve_cache_step.
  - intros reqs. apply entries_dated_all, entries_dated_boot.
Qed.

(** After the sample request and its repetition, the one entry of the
    cache expires 26 hours after the clock's reading. *)
Lemma entries_expire_after_ttl_witness :
  exists i, (i < clock_reads (AI.serve_all Sample.env_ok
                                [Sample.req_day; Sample.req_day_again] AI.boot))%nat
            /\ 1704160800000 = clock Sample.env_ok i + 26 * 3600 * 1000.
Proof.
  apply (proj2 (proj2 (entries_expire_after_ttl Sample.env_ok))
           [Sample.req_day; Sample.req_day_again]
           (js "00112233445566778899aabbccddeeff:en:relationship:2:2024-01-01")
           {| fortune := js "Speak warmly.
Trust grows slowly."; expiresAt := 1704160800000 |}).
  vm_compute. reflexivity.
Defined.

(** C10: the key is not injective.  The user ids [a:en:b] and [a] differ,
    the themes [c] and [b:en:c] differ, and with the same language, line
    count and date the two keys are one string; so a request of the second
    user, arriving while the entry lives, is answered from the cache with
    the text generated for the first. *)
Theorem cache_key_not_injective :
  JStr (js "a:en:b") <> JStr (js "a")
  /\ JStr (js "c") <> JStr (js "b:en:c")
  /\ (forall lines localDate,
        AI.cacheKey (JStr (js "a:en:b")) (js "en") (JStr (js "c")) lines localDate
        = AI.cacheKey (JStr (js "a")) (js "en") (JStr (js "b:en:c")) lines localDate)
  /\ (forall E s f,
        sent (fst (AI.serve E Sample.req_left s))
          = Some (FortuneBody f false (js "openai")) ->
        let s1 := snd (AI.serve E Sample.req_left s) in
        clock E (S (clock_reads s1)) < clock E (clock_reads s1 - 2) + 26 * 3600 * 1000 ->
        sent (fst (AI.serve E Sample.req_right s1))
          = Some (FortuneBody f true (js "cache"))).
Proof.
  split; [vm_compute; discriminate|]. split; [vm_compute; discriminate|].
  assert (Hkey : forall lines localDate,
             AI.cacheKey (JStr (js "a:en:b")) (js "en") (JStr (js "c")) lines localDate
             = AI.cacheKey (JStr (js "a")) (js "en") (JStr (js "b:en:c")) lines localDate).
  { intros lines localDate. unfold AI.cacheKey.
    cbn [ToString mbind result_bind].
    destruct (ToString localDate) as [d|e]; reflexivity. }
  split; [exact Hkey|].
  intros E s f Hgen s1 Httl.
  destruct (generated_inv E Sample.req_left s f Hgen) as (l & k & p & Hv & _ & _ & _).
  assert (Hv2 : valid_request E Sample.req_right s1 l k).
  { destruct Hv as (H1 & H2 & H3). split; [exact H1|]. split; [exact H2|].
    rewrite <- H3. symmetry. apply Hkey. }
  pose proof (shared_entry E Sample.req_left Sample.req_right s f l l k (js "a")
                Hgen Hv Hv2 eq_refl Httl) as H.
  fold s1 in H. destruct (AI.serve E Sample.req_right s1) as [r2 s2].
  apply H.
Qed.

Lemma cache_key_not_injective_witness :
  let s1 := snd (AI.serve Sample.env_ok Sample.req_left AI.boot) in
  sent (fst (AI.serve Sample.env_ok Sample.req_right s1))
  = Some (FortuneBody (js "Speak warmly.
Trust grows slowly.") true (js "cache")).
Proof.
  apply (proj2 (proj2 (proj2 cache_key_not_injective)) Sample.env_ok AI.boot).
  - vm_compute. reflexivity.
  - vm_compute. reflexivity.
Defined.

(** *** The countdown of the classic endpoint *)

(** C9, as the code has it: the answer of the classic endpoint has status
    200 and source [classic], and its [secondsUntilNext] is an integer
    that is at least 0.  On a host whose zone keeps a fixed offset it is at
    most 86400; and when, on such a host, [tz] names a zone, it is 86400
    minus the number of whole seconds elapsed since midnight on the wall
    clock of that zone, hence between 1 and 86400, and 86400 when that
    wall clock reads 00:00:00. *)
Theorem countdown_within_a_day (E : env) (T : Classic.zones)
    (req : Classic.request) (s : hstate) :
  exists f secs,
    fst (Classic.serve E T req s)
      = {| statusCode := 200; setCookie := None;
           sent := Some (ClassicBody f secs (js "classic")) |}
    /\ 0 <= secs
    /\ (forall c, Classic.fixed_offset T c ->
          secs <= 86400
          /\ (forall off,
                Classic.resolveZone T (js_or (Classic.query_tz req) (JStr (js "UTC")))
                = Ok off ->
                let t := clock E (S (clock_reads s)) in
                let wall := (t + off t) / 1000 in
                secs = 86400 - wall mod 86400
                /\ 1 <= secs
                /\ (wall mod 86400 = 0 -> secs = 86400))).
Proof.
  destruct (Classic.resolveZone T (js_or (Classic.query_tz req) (JStr (js "UTC"))))
    as [off|e] eqn:Hz.
  - rewrite (classic_known_zone E T req s off Hz). cbn [fst].
    eexists _, _. split; [reflexivity|]. split; [apply Z.le_max_l|].
    intros c Hfix. rewrite (countdown_fixed_known T c _ Hfix).
    set (wall := (clock E (S (clock_reads s)) + off (clock E (S (clock_reads s)))) / 1000).
    pose proof (Z.mod_pos_bound wall 86400 ltac:(lia)) as Hm.
    split; [lia|]. intros off' [= <-]. cbv zeta. fold wall. lia.
  - rewrite (classic_unknown_zone E T req s e Hz). cbn [fst].
    eexists _, _. split; [reflexivity|]. split; [apply Z.le_max_l|].
    intros c Hfix. rewrite (countdown_fixed_unknown T c _ Hfix).
    split; [|intros off' Hoff'; discriminate Hoff'].
    match goal with |- context [?q mod 86400000] =>
      pose proof (Z.mod_pos_bound q 86400000 ltac:(lia)) end.
    apply Z.div_le_upper_bound; lia.
Qed.

(** C9 as stated fails: at 2024-01-01T00:00:00.000Z, on a host on UTC and
    with [tz] left to its default [UTC], the countdown is 86400, which is
    not below 86400.  And on a host that keeps daylight saving time the
    day can be longer: on US Eastern time at 2024-11-03T00:00:30Z, the wall
    clock of [UTC] reads 00:00:30, which the host takes for 04:00:30Z; its
    next midnight is 2024-11-04T05:00:00Z, 89970 seconds later. *)
Lemma countdown_at_midnight :
  sent (fst (Classic.serve Sample.env_ok Sample.zones_utc Sample.req_classic AI.boot))
  = Some (ClassicBody (Some (js "Your curiosity is your superpower.")) 86400 (js "classic"))
  /\ (86400 <? 86400) = false
  /\ (exists f,
        sent (fst (Classic.serve Scenario.env_autumn Scenario.zones_dst
                     Sample.req_classic AI.boot))
        = Some (ClassicBody f 89970 (js "classic")))
  /\ (89970 <? 86400) = false.
Proof.
  split; [vm_compute; reflexivity|]. split; [reflexivity|].
  split; [eexists; vm_compute; reflexivity|reflexivity].
Qed.

(** ** Further properties *)

(** *** The hash *)

Lemma hash_fold_range s h :
  - 2 ^ 31 <= h < 2 ^ 31 -> - 2 ^ 31 <= fold_left Hash.hash_step s h < 2 ^ 31.
Proof.
  revert h. induction s as [|c s IH]; intros h Hh; [exact Hh|].
  cbn [fold_left]. apply IH. apply wrap32_range.
Qed.

(** X1: [hashString] returns an integer between 0 and 2^31, both included.
    The upper bound, which [Math.abs] makes of the 32-bit value -2^31 and
    which is not itself a signed 32-bit value, is reached. *)
Theorem hashString_bounds :
  (forall s, 0 <= Hash.hashString s <= 2 ^ 31)
  /\ Hash.hashString (js "polygenelubricants") = 2 ^ 31.
Proof.
  split; [|vm_compute; reflexivity].
  intros s. unfold Hash.hashString.
  pose proof (hash_fold_range s 0 ltac:(lia)). lia.
Qed.

(** *** The classic endpoint, path by path *)

(** X2: the classic endpoint answers every request -- whatever the headers,
    and whatever [tz] is, also a name of no zone or a value that cannot be
    converted to a string -- with status 200, a sentence of the catalog, a
    countdown that is at least 0 and source [classic], and sets no cookie;
    on a host whose zone keeps a fixed offset the countdown is at most
    86400.  The endpoint leaves the AI cache alone, calls no provider, draws
    no random number, and reads the clock two or three times. *)
Theorem classic_always_answers (E : env) (T : Classic.zones)
    (req : Classic.request) (s : hstate) :
  let '(r, s') := Classic.serve E T req s in
  (exists x secs,
     r = {| statusCode := 200; setCookie := None;
            sent := Some (ClassicBody (Some x) secs (js "classic")) |}
     /\ x ∈ Hash.fortunes /\ 0 <= secs
     /\ (forall c, Classic.fixed_offset T c -> secs <= 86400))
  /\ aiCache s' = aiCache s
  /\ provider_calls s' = provider_calls s
  /\ random_draws s' = random_draws s
  /\ (clock_reads s + 2 <= clock_reads s' <= clock_reads s + 3)%nat.
Proof.
  destruct (Classic.resolveZone T (js_or (Classic.query_tz req) (JStr (js "UTC"))))
    as [off|e] eqn:Hz.
  - rewrite (classic_known_zone E T req s off Hz).
    match goal with |- context [Classic.array_get Hash.fortunes (Hash.select_index Hash.fortunes ?sd)] =>
      destruct (catalog_entry sd) as (x & -> & Hx) end.
    split; [|cbn; repeat split; lia].
    eexists _, _. split; [reflexivity|]. split; [exact Hx|].
    split; [apply Z.le_max_l|].
    intros c Hfix. rewrite (countdown_fixed_known T c _ Hfix).
    match goal with |- context [?q mod 86400] =>
      pose proof (Z.mod_pos_bound q 86400 ltac:(lia)) end. lia.
  - rewrite (classic_unknown_zone E T req s e Hz).
    match goal with |- context [Classic.array_get Hash.fortunes (Hash.select_index Hash.fortunes ?sd)] =>
      destruct (catalog_entry sd) as (x & -> & Hx) end.
    split; [|cbn; repeat split; lia].
    eexists _, _. split; [reflexivity|]. split; [exact Hx|].
    split; [apply Z.le_max_l|].
    intros c Hfix. rewrite (countdown_fixed_unknown T c _ Hfix).
    match goal with |- context [?q mod 86400000] =>
      pose proof (Z.mod_pos_bound q 86400000 ltac:(lia)) end.
    apply Z.div_le_upper_bound; lia.
Qed.

(** X3: two requests to the classic endpoint that carry the same address
    and the same user agent (a missing one counting as the empty string)
    and for which [getTodayDate] gives the same date string are served the
    same catalog sentence, whatever the clocks read, whatever the zones
    are and whatever else the server has done in between. *)
Theorem same_day_same_fortune (E1 E2 : env) (T1 T2 : Classic.zones)
    (req1 req2 : Classic.request) (s1 s2 : hstate) :
  fst (Classic.getTodayDate E1 T1 (js_or (Classic.query_tz req1) (JStr (js "UTC"))) s1)
  = fst (Classic.getTodayDate E2 T2 (js_or (Classic.query_tz req2) (JStr (js "UTC"))) s2) ->
  Classic.or_empty (Classic.ip req1) = Classic.or_empty (Classic.ip req2) ->
  Classic.or_empty (Classic.user_agent req1) = Classic.or_empty (Classic.user_agent req2) ->
  exists f secs1 secs2,
    sent (fst (Classic.serve E1 T1 req1 s1)) = Some (ClassicBody f secs1 (js "classic"))
    /\ sent (fst (Classic.serve E2 T2 req2 s2)) = Some (ClassicBody f secs2 (js "classic")).
Proof.
  intros Hday Hip Hua.
  destruct (Classic.resolveZone T1 (js_or (Classic.query_tz req1) (JStr (js "UTC"))))
    as [off1|e1] eqn:Hz1;
  destruct (Classic.resolveZone T2 (js_or (Classic.query_tz req2) (JStr (js "UTC"))))
    as [off2|e2] eqn:Hz2.
  all: first [rewrite (getTodayDate_known _ _ _ _ _ Hz1) in Hday
             |rewrite (getTodayDate_unknown _ _ _ _ _ Hz1) in Hday].
  all: first [rewrite (getTodayDate_known _ _ _ _ _ Hz2) in Hday
             |rewrite (getTodayDate_unknown _ _ _ _ _ Hz2) in Hday].
  all: cbn [fst] in Hday; injection Hday as Hday.
  all: first [rewrite (classic_known_zone E1 T1 req1 s1 _ Hz1)
             |rewrite (classic_unknown_zone E1 T1 req1 s1 _ Hz1)].
  all: first [rewrite (classic_known_zone E2 T2 req2 s2 _ Hz2)
             |rewrite (classic_unknown_zone E2 T2 req2 s2 _ Hz2)].
  all: cbn [fst sent]; rewrite Hday, Hip, Hua; eexists _, _, _; split; reflexivity.
Qed.

(** The default zone and an unknown zone on a host on UTC, at two
    instants of the same day. *)
Lemma same_day_same_fortune_witness :
  exists f secs1 secs2,
    sent (fst (Classic.serve Sample.env_ok Sample.zones_utc Sample.req_classic AI.boot))
    = Some (ClassicBody f secs1 (js "classic"))
    /\ sent (fst (Classic.serve Scenario.env_noon Sample.zones_utc Scenario.req_mars
                    (tick AI.boot)))
       = Some (ClassicBody f secs2 (js "classic")).
Proof.
  apply (same_day_same_fortune Sample.env_ok Scenario.env_noon Sample.zones_utc
           Sample.zones_utc Sample.req_classic Scenario.req_mars AI.boot (tick AI.boot));
    vm_compute; reflexivity.
Defined.

(** X4: on a host whose zone keeps a fixed offset, when [tz] names a zone,
    the countdown is 86400 minus the number of
    whole seconds elapsed since midnight on the wall clock of that zone, at
    the second reading of the clock; it lies between 1 and 86400, and the
    zone of the host plays no part in it. *)
Theorem countdown_in_zone (E : env) (T : Classic.zones) (req : Classic.request)
    (s : hstate) (off : Z -> Z) (c : Z) :
  Classic.fixed_offset T c ->
  Classic.resolveZone T (js_or (Classic.query_tz req) (JStr (js "UTC"))) = Ok off ->
  let t := clock E (S (clock_reads s)) in
  let secs := 86400 - ((t + off t) / 1000) mod 86400 in
  (exists f, sent (fst (Classic.serve E T req s)) = Some (ClassicBody f secs (js "classic")))
  /\ 1 <= secs <= 86400.
Proof.
  intros Hfix Hz t secs. rewrite (classic_known_zone E T req s off Hz). cbn [fst sent].
  rewrite (countdown_fixed_known T c _ Hfix). fold t. fold secs.
  split; [eexists; reflexivity|].
  pose proof (Z.mod_pos_bound ((t + off t) / 1000) 86400 ltac:(lia)). unfold secs. lia.
Qed.

(** Half past noon in UTC, on a host five hours behind: 41400 seconds are
    left. *)
Lemma countdown_in_zone_witness :
  (exists f, sent (fst (Classic.serve Scenario.env_noon Scenario.zones_west
                          Sample.req_classic AI.boot))
             = Some (ClassicBody f 41400 (js "classic")))
  /\ 1 <= 41400 <= 86400.
Proof.
  apply (countdown_in_zone Scenario.env_noon Scenario.zones_west Sample.req_classic
           AI.boot (fun _ => 0) (- 18000000)).
  - intros t. cbn. split; lia.
  - vm_compute; reflexivity.
Defined.

(** X5: on a host whose zone keeps a fixed offset, when [tz] names no
    zone, or cannot be converted to a string, the
    request is still answered with status 200: the date of the seed is the
    date of the host's zone at the first reading of the clock, and the
    countdown runs to the next midnight of the host's zone from the third
    reading (the second one is dropped with the failed attempt); it lies
    between 0 and 86400. *)
Theorem unknown_zone_uses_host_zone (E : env) (T : Classic.zones)
    (req : Classic.request) (s : hstate) (e : exn) (c : Z) :
  Classic.fixed_offset T c ->
  Classic.resolveZone T (js_or (Classic.query_tz req) (JStr (js "UTC"))) = Throw e ->
  let t0 := clock E (clock_reads s) in
  let t2 := clock E (S (S (clock_reads s))) in
  let seed := Classic.format_date T (t0 + c) ++ js "|"
              ++ Classic.or_empty (Classic.ip req) ++ js "|"
              ++ Classic.or_empty (Classic.user_agent req) in
  let secs := (86400000 - (t2 + c) mod 86400000) / 1000 in
  fst (Classic.serve E T req s)
  = {| statusCode := 200; setCookie := None;
       sent := Some (ClassicBody
                       (Classic.array_get Hash.fortunes
                          (Hash.select_index Hash.fortunes seed))
                       secs (js "classic")) |}
  /\ clock_reads (snd (Classic.serve E T req s)) = S (S (S (clock_reads s)))
  /\ 0 <= secs <= 86400.
Proof.
  intros Hfix Hz t0 t2 seed secs. rewrite (classic_unknown_zone E T req s e Hz).
  cbn [fst snd]. rewrite (countdown_fixed_unknown T c _ Hfix), (proj1 (Hfix _)).
  split; [reflexivity|]. split; [reflexivity|].
  pose proof (Z.mod_pos_bound (t2 + c) 86400000 ltac:(lia)).
  unfold secs. split; [apply Z.div_pos; lia|apply Z.div_le_upper_bound; lia].
Qed.

(** [tz=Mars/Base] at half past noon UTC on a host five hours behind:
    59400 seconds are left until the host's midnight. *)
Lemma unknown_zone_uses_host_zone_witness :
  fst (Classic.serve Scenario.env_noon Scenario.zones_west Scenario.req_mars AI.boot)
  = {| statusCode := 200; setCookie := None;
       sent := Some (ClassicBody
                       (Classic.array_get Hash.fortunes
                          (Hash.select_index Hash.fortunes
                             (js "2024-01-01|203.0.113.7|curl/8.5.0")))
                       59400 (js "classic")) |}
  /\ clock_reads (snd (Classic.serve Scenario.env_noon Scenario.zones_west
                         Scenario.req_mars AI.boot)) = 3%nat
  /\ 0 <= 59400 <= 86400.
Proof.
  apply (unknown_zone_uses_host_zone Scenario.env_noon Scenario.zones_west
           Scenario.req_mars AI.boot (RangeError (js "Invalid time zone specified"))
           (- 18000000)).
  - intros t. cbn. split; lia.
  - vm_compute; reflexivity.
Defined.

(** *** The AI endpoint, path by path *)

Lemma prompt_cases lang lines :
  1 <= lines <= 2 ->
  AI.prompt lang lines ∈ [AI.prompt_tr; AI.prompt_en 1; AI.prompt_en 2].
Proof.
  intros Hl. unfold AI.prompt. destruct (jsstring_eqb lang (js "tr")).
  - apply list_elem_of_here.
  - assert (lines = 1 \/ lines = 2) as [-> | ->] by lia.
    + apply list_elem_of_further, list_elem_of_here.
    + do 2 apply list_elem_of_further. apply list_elem_of_here.
Qed.

(** X6: every request to the AI endpoint is answered, and with one of five
    answers: status 200 with one of the two fallback lines; status 200 with
    the text of an entry that the cache held, marked [cached]; status 200
    with a freshly generated text, which is not empty; status 400 with the
    [localDate] message; status 502 with the empty-result message. *)
Theorem ai_answer_is_one_of_five (E : env) (req : AI.request) (s : hstate) :
  let r := fst (AI.serve E req s) in
  (statusCode r = 200
   /\ sent r = Some (FortuneBody (AI.fallbackLine req) false (js "fallback"))
   /\ (AI.fallbackLine req = AI.fallback_tr \/ AI.fallbackLine req = AI.fallback_en))
  \/ (statusCode r = 200
      /\ exists key c, aiCache s !! key = Some c
                       /\ sent r = Some (FortuneBody (fortune c) true (js "cache")))
  \/ (statusCode r = 200
      /\ exists text, text <> []
                      /\ sent r = Some (FortuneBody text false (js "openai")))
  \/ (statusCode r = 400
      /\ sent r = Some (ErrorBody (js "localDate (YYYY-MM-DD) is required")))
  \/ (statusCode r = 502 /\ sent r = Some (ErrorBody (js "Empty AI result"))).
Proof.
  intros r.
  assert (Hfb : AI.fallbackLine req = AI.fallback_tr \/ AI.fallbackLine req = AI.fallback_en)
    by (unfold AI.fallbackLine; destruct (is_string _ _); [left|right]; reflexivity).
  destruct (serve_outcome E req s)
    as [e0 Hc Hr Hs|l0 H1 H2 Hr Hs|l0 e0 H1 H2 H3 Hr Hs|l0 k0 c0 p0 Hv Hl Hlive Hu Hr Hs|l0 k0 c0 e0 Hv Hl Hlive Hu Hr Hs|l0 k0 Hv Hm Hk Hr Hs|l0 k0 e0 Hv Hm Hk Hp Hr Hs|l0 k0 Hv Hm Hk Hp Hr Hs|l0 k0 t0 p0 Hv Hm Hk Hp Hne Hu Hr Hs|l0 k0 t0 e0 Hv Hm Hk Hp Hne Hu Hr Hs];
    unfold r; rewrite Hr; cbn [statusCode sent]; unfold fallback_body.
  - left. auto.
  - right. right. right. left. auto.
  - left. auto.
  - right. left. eauto.
  - left. auto.
  - left. auto.
  - left. auto.
  - right. right. right. right. auto.
  - right. right. left. eauto.
  - left. auto.
Qed.

(** X7: the response sets the [fcid] cookie exactly when the request
    carries no usable one and passes the validation ([lines] converts and
    [localDate] matches); the cookie is then the next draw of the random
    source.  In every other case no cookie is set and nothing is drawn:
    a request that presents a cookie is never given another, and neither
    the 400 nor the fallback of a failed conversion sets one. *)
Theorem cookie_issued_iff_needed (E : env) (req : AI.request) (s : hstate) :
  let '(r, s') := AI.serve E req s in
  let needed := cookie_missing req
                /\ (exists lines, AI.clampLines (AI.lines_of req) = Ok lines)
                /\ AI.localDateOk (AI.localDate_of req) = Ok true in
  (needed -> setCookie r = Some (randomHex E (random_draws s))
             /\ random_draws s' = S (random_draws s))
  /\ (~ needed -> setCookie r = None /\ random_draws s' = random_draws s).
Proof.
  pose proof (serve_outcome E req s) as H.
  destruct (AI.serve E req s) as [r s']. cbn [fst snd] in H.
  assert (Hin : cookie_missing req ->
                cookie_set E req s = Some (randomHex E (random_draws s))
                /\ draws_after req s = S (random_draws s))
    by (unfold cookie_set, draws_after, cookie_missing; intros ->; auto).
  assert (Hout : ~ cookie_missing req ->
                 cookie_set E req s = None /\ draws_after req s = random_draws s).
  { unfold cookie_set, draws_after, cookie_missing.
    destruct (truthy (AI.fcid req)); intros Hn; auto. destruct Hn. reflexivity. }
  assert (Hvalid : forall l k, valid_request E req s l k ->
            (cookie_missing req
             /\ (exists lines, AI.clampLines (AI.lines_of req) = Ok lines)
             /\ AI.localDateOk (AI.localDate_of req) = Ok true ->
             cookie_set E req s = Some (randomHex E (random_draws s))
             /\ draws_after req s = S (random_draws s))
            /\ (~ (cookie_missing req
                   /\ (exists lines, AI.clampLines (AI.lines_of req) = Ok lines)
                   /\ AI.localDateOk (AI.localDate_of req) = Ok true) ->
                cookie_set E req s = None /\ draws_after req s = random_draws s)).
  { intros l k (H1 & H2 & _). split; [intros (Hm & _); auto|].
    intros Hn. apply Hout. intros Hm. apply Hn. eauto. }
  destruct H as [e0 Hc Hr Hs|l0 H1 H2 Hr Hs|l0 e0 H1 H2 H3 Hr Hs|l0 k0 c0 p0 Hv Hl Hlive Hu Hr Hs|l0 k0 c0 e0 Hv Hl Hlive Hu Hr Hs|l0 k0 Hv Hm Hk Hr Hs|l0 k0 e0 Hv Hm Hk Hp Hr Hs|l0 k0 Hv Hm Hk Hp Hr Hs|l0 k0 t0 p0 Hv Hm Hk Hp Hne Hu Hr Hs|l0 k0 t0 e0 Hv Hm Hk Hp Hne Hu Hr Hs];
    subst r s'; cbn [setCookie random_draws set_res tick];
    try exact (Hvalid _ _ Hv).
  - split; [|auto]. intros (_ & (l & Hl') & Hd).
    destruct Hc as [Hc|(_ & Hc)]; congruence.
  - split; [|auto]. intros (_ & _ & Hd). congruence.
  - split; [intros (Hm & _); auto|].
    intros Hn. apply Hout. intros Hm. apply Hn. eauto.
Qed.

Lemma one_call_per_request E req s :
  provider_calls (snd (AI.serve E req s)) = provider_calls s
  \/ exists lines, 1 <= lines <= 2
       /\ provider_calls (snd (AI.serve E req s))
          = AI.prompt (AI.lang_of req) lines :: provider_calls s.
Proof.
  destruct (serve_outcome E req s)
    as [e0 Hc Hr Hs|l0 H1 H2 Hr Hs|l0 e0 H1 H2 H3 Hr Hs|l0 k0 c0 p0 Hv Hl Hlive Hu Hr Hs|l0 k0 c0 e0 Hv Hl Hlive Hu Hr Hs|l0 k0 Hv Hm Hk Hr Hs|l0 k0 e0 Hv Hm Hk Hp Hr Hs|l0 k0 Hv Hm Hk Hp Hr Hs|l0 k0 t0 p0 Hv Hm Hk Hp Hne Hu Hr Hs|l0 k0 t0 e0 Hv Hm Hk Hp Hne Hu Hr Hs];
    rewrite Hs; cbn [provider_calls set_res tick]; auto;
    right; exists l0; (split; [|reflexivity]);
    destruct Hv as (H1 & _); exact (clampLines_range _ _ H1).
Qed.

(** X8: a request makes at most one provider call, and makes it only when
    a credential is configured, the request passes the validation and its
    key has no entry or an expired one; the prompt sent is the one of the
    request's language and clamped line count. *)
Theorem provider_called_only_on_miss (E : env) (req : AI.request) (s : hstate) :
  let s' := snd (AI.serve E req s) in
  provider_calls s' = provider_calls s
  \/ exists lines key,
       valid_request E req s lines key
       /\ no_live_entry key (clock E (S (clock_reads s))) s
       /\ Diag.has_credential E = true
       /\ provider_calls s' = AI.prompt (AI.lang_of req) lines :: provider_calls s.
Proof.
  intros s'.
  destruct (serve_outcome E req s)
    as [e0 Hc Hr Hs|l0 H1 H2 Hr Hs|l0 e0 H1 H2 H3 Hr Hs|l0 k0 c0 p0 Hv Hl Hlive Hu Hr Hs|l0 k0 c0 e0 Hv Hl Hlive Hu Hr Hs|l0 k0 Hv Hm Hk Hr Hs|l0 k0 e0 Hv Hm Hk Hp Hr Hs|l0 k0 Hv Hm Hk Hp Hr Hs|l0 k0 t0 p0 Hv Hm Hk Hp Hne Hu Hr Hs|l0 k0 t0 e0 Hv Hm Hk Hp Hne Hu Hr Hs];
    unfold s'; rewrite Hs; cbn [provider_calls set_res tick]; eauto 8.
Qed.

(** X9: whatever the requests are, the texts sent to the provider are
    among three fixed prompts -- the Turkish one and the English one for
    one or for two lines -- and there is at most one call per request: the
    theme, the date, the user id and the rest of the body never reach the
    provider. *)
Theorem provider_sees_three_prompts (E : env) (reqs : list AI.request) (s : hstate) :
  exists calls,
    provider_calls (AI.serve_all E reqs s) = calls ++ provider_calls s
    /\ (length calls <= length reqs)%nat
    /\ Forall (fun p => p ∈ [AI.prompt_tr; AI.prompt_en 1; AI.prompt_en 2]) calls.
Proof.
  revert s. induction reqs as [|req reqs IH]; intros s.
  - exists []. split; [reflexivity|]. split; [reflexivity|constructor].
  - rewrite serve_all_cons.
    destruct (IH (snd (AI.serve E req s))) as (calls & -> & Hlen & Hall).
    destruct (one_call_per_request E req s)
      as [-> |(lines & Hl & ->)].
    + exists calls. split; [reflexivity|]. split; [cbn [length]; lia|exact Hall].
    + exists (calls ++ [AI.prompt (AI.lang_of req) lines]).
      split; [rewrite <- app_assoc; reflexivity|].
      split; [rewrite length_app; cbn [length]; lia|].
      apply Forall_app. split; [exact Hall|].
      constructor; [|constructor]. apply prompt_cases. exact Hl.
Qed.

Lemma no_credential_step E req s :
  Diag.has_credential E = false ->
  provider_calls (snd (AI.serve E req s)) = provider_calls s
  /\ aiCache (snd (AI.serve E req s)) = aiCache s
  /\ statusCode (fst (AI.serve E req s)) <> 502.
Proof.
  intros Hcred.
  destruct (serve_outcome E req s)
    as [e0 Hc Hr Hs|l0 H1 H2 Hr Hs|l0 e0 H1 H2 H3 Hr Hs|l0 k0 c0 p0 Hv Hl Hlive Hu Hr Hs|l0 k0 c0 e0 Hv Hl Hlive Hu Hr Hs|l0 k0 Hv Hm Hk Hr Hs|l0 k0 e0 Hv Hm Hk Hp Hr Hs|l0 k0 Hv Hm Hk Hp Hr Hs|l0 k0 t0 p0 Hv Hm Hk Hp Hne Hu Hr Hs|l0 k0 t0 e0 Hv Hm Hk Hp Hne Hu Hr Hs];
    try congruence; rewrite Hs, Hr; cbn; auto.
Qed.

(** X10: a process without a credential (none, or an empty one) never
    calls the provider and never stores anything: after any sequence of
    requests the list of provider calls and the cache are what they were,
    and no request is answered with status 502. *)
Theorem no_credential_no_generation (E : env) (reqs : list AI.request) (s : hstate) :
  Diag.has_credential E = false ->
  provider_calls (AI.serve_all E reqs s) = provider_calls s
  /\ aiCache (AI.serve_all E reqs s) = aiCache s
  /\ (forall req, statusCode (fst (AI.serve E req (AI.serve_all E reqs s))) <> 502).
Proof.
  intros Hk. revert s. induction reqs as [|req reqs IH]; intros s.
  - split; [reflexivity|]. split; [reflexivity|].
    intros req. apply (no_credential_step E req s Hk).
  - rewrite serve_all_cons.
    destruct (IH (snd (AI.serve E req s))) as (-> & -> & H).
    destruct (no_credential_step E req s Hk) as (Hp & Hc & _). auto.
Qed.

(** Two valid requests to a process that has no credential. *)
Lemma no_credential_no_generation_witness :
  provider_calls (AI.serve_all Sample.env_no_key [Sample.req_day; Sample.req_left] AI.boot)
  = provider_calls AI.boot
  /\ aiCache (AI.serve_all Sample.env_no_key [Sample.req_day; Sample.req_left] AI.boot)
     = aiCache AI.boot
  /\ (forall req,
        statusCode (fst (AI.serve Sample.env_no_key req
                           (AI.serve_all Sample.env_no_key
                              [Sample.req_day; Sample.req_left] AI.boot))) <> 502).
Proof.
  apply (no_credential_no_generation Sample.env_no_key
           [Sample.req_day; Sample.req_left] AI.boot).
  vm_compute; reflexivity.
Defined.

(** X11: the cache only grows.  A request leaves every entry as it was,
    except at most the one under its own key, and that one only when the
    key had no entry or an expired one: it then holds the generated text,
    which is not empty, and expires 26 hours after the reading of the clock
    that follows the lookup.  No request removes an entry: an expired entry
    stays until a request with the same key replaces it. *)
Theorem cache_only_grows (E : env) :
  (forall req s k,
     aiCache (snd (AI.serve E req s)) !! k = aiCache s !! k
     \/ exists lines text,
          valid_request E req s lines k
          /\ no_live_entry k (clock E (S (clock_reads s))) s
          /\ text <> []
          /\ aiCache (snd (AI.serve E req s)) !! k
             = Some {| fortune := text;
                       expiresAt := clock E (reads_after_lookup k s) + 26 * 3600 * 1000 |})
  /\ (forall reqs s k,
        is_Some (aiCache s !! k) -> is_Some (aiCache (AI.serve_all E reqs s) !! k)).
Proof.
  assert (Hstep : forall req s k,
            aiCache (snd (AI.serve E req s)) !! k = aiCache s !! k
            \/ exists lines text,
                 valid_request E req s lines k
                 /\ no_live_entry k (clock E (S (clock_reads s))) s
                 /\ text <> []
                 /\ aiCache (snd (AI.serve E req s)) !! k
                    = Some {| fortune := text;
                              expiresAt := clock E (reads_after_lookup k s)
                                           + 26 * 3600 * 1000 |}).
  { intros req s k.
    destruct (serve_outcome E req s)
    as [e0 Hc Hr Hs|l0 H1 H2 Hr Hs|l0 e0 H1 H2 H3 Hr Hs|l0 k0 c0 p0 Hv Hl Hlive Hu Hr Hs|l0 k0 c0 e0 Hv Hl Hlive Hu Hr Hs|l0 k0 Hv Hm Hk Hr Hs|l0 k0 e0 Hv Hm Hk Hp Hr Hs|l0 k0 Hv Hm Hk Hp Hr Hs|l0 k0 t0 p0 Hv Hm Hk Hp Hne Hu Hr Hs|l0 k0 t0 e0 Hv Hm Hk Hp Hne Hu Hr Hs];
      rewrite Hs; cbn [aiCache set_res tick]; auto.
    - destruct (decide (k0 = k)) as [<-|Hneq].
      + right. exists l0, t0. rewrite lookup_insert_eq. auto.
      + left. apply lookup_insert_ne. exact Hneq.
    - destruct (decide (k0 = k)) as [<-|Hneq].
      + right. exists l0, t0. rewrite lookup_insert_eq. auto.
      + left. apply lookup_insert_ne. exact Hneq. }
  split; [exact Hstep|].
  intros reqs. induction reqs as [|req reqs IH]; intros s k Hsome; [exact Hsome|].
  rewrite serve_all_cons. apply IH.
  destruct (Hstep req s k) as [-> |(lines & text & _ & _ & _ & ->)]; eauto.
Qed.

(** X12: a valid request whose key has no entry, or an expired one, on a
    process with a credential, whose provider answers with a text that
    formats to a non-empty [text].  The provider has been called once,
    with the prompt of the request's language and line count, and [text]
    is stored under the key, expiring 26 hours after the reading of the
    clock taken at the store; the cookie is set if the request had none.
    When [userId.slice(0,8)] of the log line does not throw -- the user id
    is a string or an array -- the answer is [text] with status 200 and
    source [openai], after one more reading of the clock.  When it throws
    -- the [fcid] cookie was decoded to a Number, [true] or an object --
    the text stays stored, and the answer is the fallback line. *)
Theorem miss_generates_and_stores (E : env) (req : AI.request) (s : hstate)
    (lines : Z) (key text : jsstring) :
  valid_request E req s lines key ->
  no_live_entry key (clock E (S (clock_reads s))) s ->
  Diag.has_credential E = true ->
  provider_gives (completion E (length (provider_calls s))
                    (AI.prompt (AI.lang_of req) lines)) lines text ->
  text <> [] ->
  let stored := <[key := {| fortune := text;
                            expiresAt := clock E (reads_after_lookup key s)
                                         + 26 * 3600 * 1000 |}]> (aiCache s) in
  let calls := AI.prompt (AI.lang_of req) lines :: provider_calls s in
  (forall p, AI.user_prefix (AI.userIdOf E req s) = Ok p ->
     let r := {| statusCode := 200; setCookie := cookie_set E req s;
                 sent := Some (FortuneBody text false (js "openai")) |} in
     AI.serve E req s
     = (r, {| aiCache := stored; clock_reads := S (S (reads_after_lookup key s));
              random_draws := draws_after req s; provider_calls := calls; res := r |}))
  /\ (forall e, AI.user_prefix (AI.userIdOf E req s) = Throw e ->
       let r := {| statusCode := 200; setCookie := cookie_set E req s;
                   sent := Some (FortuneBody (AI.fallbackLine req) false
                                   (js "fallback")) |} in
       AI.serve E req s
       = (r, {| aiCache := stored; clock_reads := S (reads_after_lookup key s);
                random_draws := draws_after req s; provider_calls := calls; res := r |})).
Proof.
  intros Hv Hm Hk Hp Hne stored calls. split.
  - intros p Hu r. apply serve_by_path.
    exact (Out_generated E req s _ _ lines key text p Hv Hm Hk Hp Hne Hu eq_refl eq_refl).
  - intros e Hu r. apply serve_by_path.
    exact (Out_stored_unlogged E req s _ _ lines key text e Hv Hm Hk Hp Hne Hu
             eq_refl eq_refl).
Qed.

(** After two days the entry of the first request has expired, and the
    same request generates again; and a first request with
    [Cookie: fcid=j:123] leaves its text in the cache and is answered with
    the fallback. *)
Lemma miss_generates_and_stores_witness :
  sent (fst (AI.serve Scenario.env_later Sample.req_day_again
               (snd (AI.serve Scenario.env_later Sample.req_day AI.boot))))
  = Some (FortuneBody (js "Speak warmly.
Trust grows slowly.") false (js "openai"))
  /\ fst (AI.serve Sample.env_ok Scenario.req_number_id AI.boot)
     = {| statusCode := 200; setCookie := None;
          sent := Some (FortuneBody (js "Speak plainly today; repair begins there.")
                          false (js "fallback")) |}
  /\ aiCache (snd (AI.serve Sample.env_ok Scenario.req_number_id AI.boot))
       !! js "123:en:relationship:2:2024-01-01"
     = Some {| fortune := js "Speak warmly.
Trust grows slowly."; expiresAt := 1704067200000 + 26 * 3600 * 1000 |}.
Proof.
  split; [|split].
  - destruct (miss_generates_and_stores Scenario.env_later Sample.req_day_again
                (snd (AI.serve Scenario.env_later Sample.req_day AI.boot)) 2
                (js "00112233445566778899aabbccddeeff:en:relationship:2:2024-01-01")
                (js "Speak warmly.
Trust grows slowly.")) as [H _].
    + vm_compute. repeat split; reflexivity.
    + right. eexists. split; [vm_compute; reflexivity|].
      apply Z.leb_le. vm_compute. reflexivity.
    + vm_compute. reflexivity.
    + eexists _, _. split; [vm_compute; reflexivity|].
      split; vm_compute; reflexivity.
    + vm_compute. discriminate.
    + rewrite (H (js "00112233")); [reflexivity|vm_compute; reflexivity].
  - destruct (miss_generates_and_stores Sample.env_ok Scenario.req_number_id AI.boot 2
                (js "123:en:relationship:2:2024-01-01")
                (js "Speak warmly.
Trust grows slowly.")) as [_ H].
    + vm_compute. repeat split; reflexivity.
    + left. vm_compute. reflexivity.
    + vm_compute. reflexivity.
    + eexists _, _. split; [vm_compute; reflexivity|].
      split; vm_compute; reflexivity.
    + vm_compute. discriminate.
    + rewrite (H (TypeError (js "userId.slice is not a function")));
        [vm_compute; reflexivity|vm_compute; reflexivity].
  - destruct (miss_generates_and_stores Sample.env_ok Scenario.req_number_id AI.boot 2
                (js "123:en:relationship:2:2024-01-01")
                (js "Speak warmly.
Trust grows slowly.")) as [_ H].
    + vm_compute. repeat split; reflexivity.
    + left. vm_compute. reflexivity.
    + vm_compute. reflexivity.
    + eexists _, _. split; [vm_compute; reflexivity|].
      split; vm_compute; reflexivity.
    + vm_compute. discriminate.
    + rewrite (H (TypeError (js "userId.slice is not a function")));
        [vm_compute; reflexivity|vm_compute; reflexivity].
Defined.

Lemma ToString_throws_truthy v e : ToString v = Throw e -> truthy v = true.
Proof. destruct v; try discriminate; reflexivity. Qed.

Lemma clampLines_throws v e : ToString v = Throw e -> AI.clampLines v = Throw e.
Proof. intros H. unfold AI.clampLines, parseInt10. rewrite H. reflexivity. Qed.

Lemma localDateOk_throws v e : ToString v = Throw e -> AI.localDateOk v = Throw e.
Proof.
  intros H. unfold AI.localDateOk, js_or. rewrite (ToString_throws_truthy v e H), H.
  reflexivity.
Qed.

(** X13: when [lines] or [localDate] cannot be converted to a string (an
    object that owns a [toString] key, or an array that holds one), the
    answer is the fallback line with status 200, not the 400: the
    conversion throws inside the [try] block.  No cookie is set, and the
    request leaves nothing behind but its reading of the clock. *)
Theorem unconvertible_field_falls_back (E : env) (req : AI.request) (s : hstate)
    (e : exn) :
  ToString (AI.lines_of req) = Throw e \/ ToString (AI.localDate_of req) = Throw e ->
  let r := {| statusCode := 200; setCookie := None;
              sent := Some (FortuneBody (AI.fallbackLine req) false (js "fallback")) |} in
  AI.serve E req s = (r, set_res r (tick s)).
Proof.
  intros H r. apply serve_by_path.
  destruct (AI.clampLines (AI.lines_of req)) as [l|e'] eqn:H1.
  - destruct H as [H|H]; [rewrite (clampLines_throws _ _ H) in H1; discriminate|].
    eapply Out_unconvertible; [right; split; [eauto|]|reflexivity|reflexivity].
    apply localDateOk_throws. exact H.
  - eapply Out_unconvertible; [left; exact H1|reflexivity|reflexivity].
Qed.

(** [{ "localDate": { "toString": 1 } }]: the fallback, not the 400. *)
Lemma unconvertible_field_falls_back_witness :
  let r := {| statusCode := 200; setCookie := None;
              sent := Some (FortuneBody (AI.fallbackLine Scenario.req_bad_date) false
                              (js "fallback")) |} in
  AI.serve Sample.env_ok Scenario.req_bad_date AI.boot = (r, set_res r (tick AI.boot)).
Proof.
  apply (unconvertible_field_falls_back Sample.env_ok Scenario.req_bad_date AI.boot
           (TypeError (js "Cannot convert object to primitive value"))).
  right. vm_compute. reflexivity.
Defined.

Lemma localDateOk_accepts v :
  AI.localDateOk v = Ok true -> exists d, ToString v = Ok d /\ AI.matchLocalDate d = true.
Proof.
  unfold AI.localDateOk, js_or. destruct (truthy v).
  - destruct (ToString v) as [d|e]; [|discriminate].
    cbn [mbind result_bind]. intros [= Hm]. eauto.
  - cbn. discriminate.
Qed.

Lemma matchLocalDate_length d : AI.matchLocalDate d = true -> length d = 10%nat.
Proof.
  destruct d as [|c1 [|c2 [|c3 [|c4 [|c5 [|c6 [|c7 [|c8 [|c9 [|c10 [|c11 d]]]]]]]]]]];
    try discriminate.
  reflexivity.
Qed.

Lemma is_digit_range c : is_digit c = true <-> (48 <= c <= 57)%N.
Proof. unfold is_digit. rewrite andb_true_iff, !N.leb_le. tauto. Qed.

(** A value that is not truthy does not convert to a string of ten
    units. *)
Lemma falsy_not_a_date v d :
  truthy v = false -> ToString v = Ok d -> length d <> 10%nat.
Proof.
  destruct v as [| |b|r|t|items|props]; try discriminate; cbn [ToString];
    intros Htr [= Hd]; subst d.
  - vm_compute. discriminate.
  - vm_compute. discriminate.
  - cbn in Htr. subst b. vm_compute. discriminate.
  - unfold truthy, jsstring_eqb in Htr.
    destruct (bool_decide_reflect (r = js "0")) as [Heq|_];
      [rewrite Heq; vm_compute; discriminate|].
    destruct (bool_decide_reflect (r = js "NaN")) as [Heq|_];
      [rewrite Heq; vm_compute; discriminate|].
    discriminate.
  - destruct t; [discriminate|]. cbn in Htr. discriminate.
Qed.

(** X14: [localDate] passes the validation exactly when its string
    conversion is made of four decimal digits, a hyphen, two digits, a
    hyphen and two digits (the digits are the code units 48 to 57, the
    hyphen is 45) and of nothing else.  Neither its type nor the calendar
    is looked at: the array [["2024-01-01"]] passes, and so does the string
    [0000-99-99]; a date followed by a space does not. *)
Theorem localDate_accepted_iff :
  (forall v,
     AI.localDateOk v = Ok true
     <-> exists y m d,
           ToString v = Ok (y ++ [45%N] ++ m ++ [45%N] ++ d)
           /\ length y = 4%nat /\ length m = 2%nat /\ length d = 2%nat
           /\ Forall (fun c => (48 <= c <= 57)%N) (y ++ m ++ d))
  /\ AI.localDateOk (JArr [JStr (js "2024-01-01")]) = Ok true
  /\ AI.localDateOk (JStr (js "0000-99-99")) = Ok true
  /\ AI.localDateOk (JStr (js "2024-01-01 ")) = Ok false
  /\ AI.localDateOk (JStr (js "2024-O1-01")) = Ok false.
Proof.
  split; [|repeat split; vm_compute; reflexivity].
  intros v. split.
  - intros H. apply localDateOk_accepts in H as (s & Hs & Hm).
    destruct s as [|c1 [|c2 [|c3 [|c4 [|c5 [|c6 [|c7 [|c8 [|c9 [|c10 [|c11 s]]]]]]]]]]];
      try discriminate Hm.
    cbn [AI.matchLocalDate] in Hm.
    repeat (apply andb_prop in Hm; destruct Hm as [Hm ?]).
    repeat match goal with
           | H : (_ =? 45)%N = true |- _ => apply N.eqb_eq in H; subst
           | H : (_ <=? _)%N = true |- _ => apply N.leb_le in H
           | H : is_digit _ = true |- _ => apply is_digit_range in H
           end.
    exists [c1; c2; c3; c4], [c6; c7], [c9; c10].
    split; [exact Hs|]. repeat split. cbn [app].
    repeat (apply Forall_cons; split; [lia|]). apply Forall_nil_2.
  - intros (y & m & d & Hs & Hy & Hmm & Hd & Hall).
    destruct y as [|y1 [|y2 [|y3 [|y4 [|y5 y]]]]]; try discriminate Hy.
    destruct m as [|m1 [|m2 [|m3 m]]]; try discriminate Hmm.
    destruct d as [|d1 [|d2 [|d3 d]]]; try discriminate Hd.
    cbn [app] in Hs, Hall.
    unfold AI.localDateOk, js_or. destruct (truthy v) eqn:Htr.
    + rewrite Hs. cbn [mbind result_bind AI.matchLocalDate]. f_equal.
      repeat match goal with
             | H : Forall _ (_ :: _) |- _ =>
               let Hc := fresh "Hc" in
               apply Forall_cons_1 in H as [Hc H]; apply is_digit_range in Hc; rewrite Hc
             end.
      reflexivity.
    + destruct (falsy_not_a_date v _ Htr Hs). reflexivity.
Qed.

(** *** The texts that are served *)

Lemma formatted_mono n m out : (n <= m)%nat -> formatted n out -> formatted m out.
Proof. intros Hnm (ls & -> & Hlen & Hall). exists ls. split; [reflexivity|]. split; [lia|exact Hall]. Qed.

(** Whatever the provider returns, what [formatFortune] makes of it is a
    formatted text. *)
Lemma formatFortune_formatted raw lines text :
  0 <= lines ->
  Format.formatFortune raw lines 140 = Ok text -> formatted (Z.to_nat lines) text.
Proof.
  intros Hl. unfold Format.formatFortune, Format.cleaned.
  destruct (ToString (js_or raw (JStr []))) as [s|e]; [|discriminate].
  cbn [mbind result_bind].
  destruct (Format.nonempty (Format.strip s)); cbn [negb].
  - intros [= <-]. eexists. split; [reflexivity|].
    rewrite slice0_nonneg by exact Hl. split.
    + rewrite length_map, length_take. lia.
    + apply Forall_map, Forall_forall. intros k Hk.
      apply subseteq_take in Hk.
      destruct (lines_of_line _ _ Hk) as (Hne & Htrim & Hlf & Hsub).
      apply truncLine_line; try assumption.
      intros Hcr. exact (strip_no_CR s (Hsub _ Hcr)).
  - intros [= <-]. exists []. split; [reflexivity|]. split; [cbn; lia|constructor].
Qed.

Lemma join_with_cons sep l ls :
  join_with sep (l :: ls) = match ls with [] => l | _ => l ++ sep ++ join_with sep ls end.
Proof. destruct ls; reflexivity. Qed.

Lemma join_with_nonempty sep l ls : l <> [] -> join_with sep (l :: ls) <> [].
Proof.
  intros Hl. rewrite join_with_cons. destruct ls; [exact Hl|].
  destruct l; [congruence|discriminate].
Qed.

Lemma fallback_formatted req : formatted 2 (AI.fallbackLine req).
Proof.
  assert (Hone : forall l, (1 <=? length l)%nat && (length l <=? 140)%nat
                           && bool_decide (CR ∉ l) && bool_decide (LF ∉ l)
                           && match head l with Some c => negb (is_ws c) | None => false end
                           && match last l with Some c => negb (is_ws c) | None => false end
                           = true ->
                           formatted 2 l).
  { intros l H. repeat (apply andb_prop in H; destruct H as [H ?]).
    exists [l]. split; [reflexivity|]. split; [cbn; lia|].
    constructor; [|constructor].
    apply Nat.leb_le in H.
    match goal with H' : (length l <=? 140)%nat = true |- _ => apply Nat.leb_le in H' end.
    repeat match goal with H' : bool_decide _ = true |- _ => apply bool_decide_eq_true in H' end.
    split; [lia|]. split; [assumption|]. split; [assumption|].
    split; intros c Hc.
    - match goal with H' : match head l with _ => _ end = true |- _ =>
        rewrite Hc in H'; apply negb_true_iff in H'; exact H' end.
    - match goal with H' : match last l with _ => _ end = true |- _ =>
        rewrite Hc in H'; apply negb_true_iff in H'; exact H' end. }
  unfold AI.fallbackLine. destruct (is_string _ _); apply Hone; vm_compute; reflexivity.
Qed.

Lemma entries_formatted_step E req s :
  entries_formatted s -> entries_formatted (snd (AI.serve E req s)).
Proof.
  intros Hinv.
  assert (Hnew : forall l0 k0 t0,
            valid_request E req s l0 k0 ->
            provider_gives (completion E (length (provider_calls s))
                              (AI.prompt (AI.lang_of req) l0)) l0 t0 ->
            t0 <> [] ->
            forall m, entries_formatted
                        {| aiCache := <[k0 := {| fortune := t0; expiresAt := m |}]> (aiCache s);
                           clock_reads := clock_reads s; random_draws := random_draws s;
                           provider_calls := provider_calls s; res := res s |}).
  { intros l0 k0 t0 (H1 & _) (rsp & raw & _ & _ & Hf) Hne m k c. cbn [aiCache].
    destruct (decide (k0 = k)) as [<-|Hneq].
    - rewrite lookup_insert_eq. intros [= <-]. cbn [fortune]. split; [exact Hne|].
      pose proof (clampLines_range _ _ H1) as Hrange.
      apply (formatted_mono (Z.to_nat l0)); [lia|].
      apply (formatFortune_formatted raw); [lia|exact Hf].
    - rewrite lookup_insert_ne by exact Hneq. apply Hinv. }
  destruct (serve_outcome E req s)
    as [e0 Hc Hr Hs|l0 H1 H2 Hr Hs|l0 e0 H1 H2 H3 Hr Hs|l0 k0 c0 p0 Hv Hl Hlive Hu Hr Hs|l0 k0 c0 e0 Hv Hl Hlive Hu Hr Hs|l0 k0 Hv Hm Hk Hr Hs|l0 k0 e0 Hv Hm Hk Hp Hr Hs|l0 k0 Hv Hm Hk Hp Hr Hs|l0 k0 t0 p0 Hv Hm Hk Hp Hne Hu Hr Hs|l0 k0 t0 e0 Hv Hm Hk Hp Hne Hu Hr Hs];
    rewrite Hs; try exact Hinv.
  - exact (Hnew l0 k0 t0 Hv Hp Hne _).
  - exact (Hnew l0 k0 t0 Hv Hp Hne _).
Qed.

Lemma entries_formatted_all E reqs s :
  entries_formatted s -> entries_formatted (AI.serve_all E reqs s).
Proof.
  revert s. induction reqs as [|req reqs IH]; intros s Hinv; [exact Hinv|].
  rewrite serve_all_cons. apply IH, entries_formatted_step, Hinv.
Qed.

(** X15: whatever requests a process has served since it started, and
    whatever the provider has returned, every fortune that the AI endpoint
    sends -- generated, from the cache or the fallback -- is a non-empty
    text of at most two lines, each of them non-empty, at most 140 code
    units long, free of carriage returns and without white space at either
    end. *)
Theorem served_text_is_formatted (E : env) (reqs : list AI.request)
    (req : AI.request) (text : jsstring) (cached : bool) (source : jsstring) :
  sent (fst (AI.serve E req (AI.serve_all E reqs AI.boot)))
  = Some (FortuneBody text cached source) ->
  text <> [] /\ formatted 2 text.
Proof.
  pose proof (entries_formatted_all E reqs AI.boot) as Hinv.
  assert (Hboot : entries_formatted AI.boot)
    by (intros k c Hk; cbn in Hk; rewrite lookup_empty in Hk; discriminate).
  specialize (Hinv Hboot). clear Hboot.
  set (s := AI.serve_all E reqs AI.boot) in *.
  destruct (serve_outcome E req s)
    as [e0 Hc Hr Hs|l0 H1 H2 Hr Hs|l0 e0 H1 H2 H3 Hr Hs|l0 k0 c0 p0 Hv Hl Hlive Hu Hr Hs|l0 k0 c0 e0 Hv Hl Hlive Hu Hr Hs|l0 k0 Hv Hm Hk Hr Hs|l0 k0 e0 Hv Hm Hk Hp Hr Hs|l0 k0 Hv Hm Hk Hp Hr Hs|l0 k0 t0 p0 Hv Hm Hk Hp Hne Hu Hr Hs|l0 k0 t0 e0 Hv Hm Hk Hp Hne Hu Hr Hs];
    rewrite Hr; cbn [sent]; unfold fallback_body; intros [= <- <- <-];
    try (split; [apply fallback_nonempty|apply fallback_formatted]).
  - exact (Hinv k0 c0 Hl).
  - split; [exact Hne|].
    destruct Hv as (H1 & _). destruct Hp as (rsp & raw & _ & _ & Hf).
    pose proof (clampLines_range _ _ H1) as Hrange.
    apply (formatted_mono (Z.to_nat l0)); [lia|].
    apply (formatFortune_formatted raw); [lia|exact Hf].
Qed.

(** The second of two identical requests is served from the cache. *)
Lemma served_text_is_formatted_witness :
  js "Speak warmly.
Trust grows slowly." <> []
  /\ formatted 2 (js "Speak warmly.
Trust grows slowly.").
Proof.
  apply (served_text_is_formatted Sample.env_ok [Sample.req_day] Sample.req_day_again
           (js "Speak warmly.
Trust grows slowly.") true (js "cache")).
  vm_compute. reflexivity.
Defined.

(** The line count is 2 when the string conversion of [lines] starts
    (after white space) with an integer that is at least 2, and 1 in every
    other case: no leading integer, zero, one, or a negative number. *)
Lemma clampLines_value (v : jsval) (l : jsstring) :
  ToString v = Ok l ->
  AI.clampLines v = Ok (match int_prefix l with
                        | Some n => if 2 <=? n then 2 else 1
                        | None => 1
                        end).
Proof.
  intros H. unfold AI.clampLines, parseInt10. rewrite H. cbn [mbind result_bind].
  f_equal. destruct (int_prefix l) as [n|]; [|reflexivity].
  destruct (Z.eqb_spec n 0) as [-> |Hn]; [reflexivity|].
  destruct (Z.leb_spec 2 n); lia.
Qed.

(** X16: a generated answer has a single line unless the request asks for
    two or more: the text sent with source [openai] is a formatted text of
    at most two lines when the string conversion of [lines] starts (after
    white space) with an integer that is at least 2, and of one line in
    every other case -- no leading integer, zero, one, a negative number --
    whatever the provider returned. *)
Theorem generated_text_respects_lines (E : env) (req : AI.request) (s : hstate)
    (l text : jsstring) :
  ToString (AI.lines_of req) = Ok l ->
  sent (fst (AI.serve E req s)) = Some (FortuneBody text false (js "openai")) ->
  formatted (match int_prefix l with
             | Some n => if 2 <=? n then 2%nat else 1%nat
             | None => 1%nat
             end) text.
Proof.
  intros Hlines. apply clampLines_value in Hlines.
  destruct (serve_outcome E req s)
    as [e0 Hc Hr Hs|l0 H1 H2 Hr Hs|l0 e0 H1 H2 H3 Hr Hs|l0 k0 c0 p0 Hv Hl Hlive Hu Hr Hs|l0 k0 c0 e0 Hv Hl Hlive Hu Hr Hs|l0 k0 Hv Hm Hk Hr Hs|l0 k0 e0 Hv Hm Hk Hp Hr Hs|l0 k0 Hv Hm Hk Hp Hr Hs|l0 k0 t0 p0 Hv Hm Hk Hp Hne Hu Hr Hs|l0 k0 t0 e0 Hv Hm Hk Hp Hne Hu Hr Hs];
    rewrite Hr; cbn [sent]; unfold fallback_body; intros H;
    try discriminate H;
    try (destruct js_fallback_openai;
         exact (f_equal (fun o => match o with
                                  | Some (FortuneBody _ _ src) => src
                                  | _ => []
                                  end) H)).
  injection H as <-. destruct Hv as (H1 & _). destruct Hp as (rsp & raw & _ & _ & Hf).
  rewrite Hlines in H1. injection H1 as <-.
  replace (match int_prefix l with
           | Some n => if 2 <=? n then 2%nat else 1%nat
           | None => 1%nat
           end)
    with (Z.to_nat (match int_prefix l with
                    | Some n => if 2 <=? n then 2 else 1
                    | None => 1
                    end))
    by (destruct (int_prefix l) as [n|]; [destruct (2 <=? n)|]; reflexivity).
  apply (formatFortune_formatted raw); [|exact Hf].
  destruct (int_prefix l) as [n|]; [destruct (2 <=? n)|]; lia.
Qed.

(** [lines: 1]: of the provider's two lines the first one is sent. *)
Lemma generated_text_respects_lines_witness :
  formatted (match int_prefix (js "1") with
             | Some n => if 2 <=? n then 2%nat else 1%nat
             | None => 1%nat
             end) (js "Speak warmly.").
Proof.
  apply (generated_text_respects_lines Sample.env_ok Scenario.req_one_line AI.boot
           (js "1") (js "Speak warmly."));
    vm_compute; reflexivity.
Defined.

(** *** The formatter on its own output, and on blank texts *)

Lemma cleaned_string t : Format.cleaned (JStr t) = Ok (Format.strip t).
Proof.
  unfold Format.cleaned.
  replace (ToString (js_or (JStr t) (JStr []))) with (Ok (A:=jsstring) t)
    by (destruct t; reflexivity).
  reflexivity.
Qed.

Lemma filter_all {A} (p : A -> bool) (l : list A) :
  Forall (fun x => p x = true) l -> List.filter p l = l.
Proof.
  induction 1 as [|x l Hx _ IH]; [reflexivity|].
  cbn [List.filter]. rewrite Hx, IH. reflexivity.
Qed.

Lemma map_fixed {A} (f : A -> A) (l : list A) :
  Forall (fun x => f x = x) l -> map f l = l.
Proof.
  induction 1 as [|x l Hx _ IH]; [reflexivity|].
  cbn [map]. rewrite Hx, IH. reflexivity.
Qed.

Lemma elem_of_join (c : N) sep ls :
  c ∈ join_with sep ls -> c ∈ sep \/ exists l, l ∈ ls /\ c ∈ l.
Proof.
  induction ls as [|l ls IH]; [intros H; inversion H|].
  rewrite join_with_cons. destruct ls as [|l' ls'].
  - intros H. right. exists l. split; [apply list_elem_of_here|exact H].
  - intros H. apply elem_of_app in H as [H|H];
      [right; exists l; split; [apply list_elem_of_here|exact H]|].
    apply elem_of_app in H as [H|H]; [left; exact H|].
    destruct (IH H) as [?|(x & Hx & Hc)]; [left; assumption|].
    right. exists x. split; [apply list_elem_of_further; exact Hx|exact Hc].
Qed.

Lemma trimmed_join ls :
  Forall (fun l => l <> [] /\ trimmed l) ls -> trimmed (join_with [LF] ls).
Proof.
  induction ls as [|l ls IH]; [intros _; split; intros ?; discriminate|].
  intros Hall. inversion Hall as [|? ? [Hne [Hh Hl]] Hrest]; subst.
  rewrite join_with_cons. destruct ls as [|l' ls']; [split; assumption|].
  destruct (IH Hrest) as [_ Hl'].
  assert (Hne' : join_with [LF] (l' :: ls') <> []).
  { apply join_with_nonempty. inversion Hrest as [|? ? [H _] _]. exact H. }
  split.
  - intros c Hc. apply Hh. destruct l; [congruence|exact Hc].
  - intros d Hd. rewrite app_assoc, last_app in Hd.
    destruct (last (join_with [LF] (l' :: ls'))) as [y|] eqn:Hlast.
    + injection Hd as <-. apply Hl'. reflexivity.
    + apply last_None in Hlast. contradiction.
Qed.

(** A formatted text is a fixed point of the formatter. *)
Lemma formatted_fixed n out lines :
  formatted n out -> (n <= Z.to_nat lines)%nat -> 0 <= lines ->
  Format.formatFortune (JStr out) lines 140 = Ok out.
Proof.
  intros (ls & -> & Hlen & Hall) Hn Hl.
  unfold Format.formatFortune. rewrite cleaned_string. cbn [mbind result_bind].
  destruct ls as [|l ls]; [reflexivity|].
  remember (join_with [LF] (l :: ls)) as out eqn:Hout.
  assert (Hne : out <> []).
  { subst out. apply join_with_nonempty. inversion Hall as [|? ? [H _] _]. subst.
    destruct l; [cbn in H; lia|discriminate]. }
  assert (Hcr : CR ∉ out).
  { subst out. intros H. apply elem_of_join in H as [H|(x & Hx & Hc)].
    - apply list_elem_of_singleton in H. discriminate.
    - rewrite Forall_forall in Hall. destruct (Hall x Hx) as (_ & Hno & _). auto. }
  assert (Htr : trimmed out).
  { subst out. apply trimmed_join. eapply Forall_impl; [exact Hall|].
    intros x (Hx & _ & _ & Ht). split; [|exact Ht].
    destruct x; [cbn in Hx; lia|discriminate]. }
  assert (Hstrip : Format.strip out = out).
  { unfold Format.strip. rewrite filter_all; [apply trimmed_fixed; exact Htr|].
    apply Forall_forall. intros c Hc.
    destruct (N.eqb_spec c CR) as [-> |_]; [contradiction|reflexivity]. }
  rewrite Hstrip.
  replace (Format.nonempty out) with true
    by (rewrite nonempty_length; destruct out; [congruence|reflexivity]).
  cbn [negb]. f_equal.
  assert (Hlines : Format.lines_of out = l :: ls).
  { unfold Format.lines_of. rewrite Hout, split_on_join;
      [|discriminate|eapply Forall_impl; [exact Hall|]; cbn; tauto].
    rewrite map_fixed
      by (eapply Forall_impl; [exact Hall|]; intros x (_ & _ & _ & Ht);
          apply trimmed_fixed; exact Ht).
    apply filter_all. eapply Forall_impl; [exact Hall|].
    intros x (Hx & _). rewrite nonempty_length.
    destruct x; [cbn in Hx; lia|reflexivity]. }
  rewrite Hlines, slice0_nonneg by exact Hl.
  rewrite take_ge by lia.
  rewrite map_fixed; [symmetry; exact Hout|].
  eapply Forall_impl; [exact Hall|]. intros x (Hx & _).
  rewrite truncLine_cap. unfold Format.cap_line.
  destruct (Nat.leb_spec (length x) 140); [reflexivity|lia].
Qed.

(** X17: [formatFortune] is idempotent: formatting again what it has
    returned, with the same line count, gives the same text back. *)
Theorem formatFortune_idempotent (raw : jsval) (lines : Z) (text : jsstring) :
  0 <= lines ->
  Format.formatFortune raw lines 140 = Ok text ->
  Format.formatFortune (JStr text) lines 140 = Ok text.
Proof.
  intros Hl Hf. apply (formatted_fixed (Z.to_nat lines)); [|lia|exact Hl].
  apply (formatFortune_formatted raw); assumption.
Qed.

(** Three padded lines, of which two are kept. *)
Lemma formatFortune_idempotent_witness :
  Format.formatFortune (JStr (js "Speak warmly.
Trust grows slowly.")) 2 140
  = Ok (js "Speak warmly.
Trust grows slowly.").
Proof.
  apply (formatFortune_idempotent
           (JStr (js "  Speak warmly.  

   Trust grows slowly. 
 Listen first.")) 2).
  - lia.
  - vm_compute. reflexivity.
Defined.

Lemma skip_while_nil_iff s : skip_while is_ws s = [] <-> forallb is_ws s = true.
Proof.
  induction s as [|c s IH]; [cbn; tauto|].
  cbn [skip_while forallb]. destruct (is_ws c); [exact IH|].
  split; discriminate.
Qed.

Lemma skip_while_snoc p s c : p c = false -> skip_while p (s ++ [c]) <> [].
Proof.
  intros Hc. induction s as [|a s IH]; cbn [app skip_while].
  - rewrite Hc. discriminate.
  - destruct (p a); [exact IH|discriminate].
Qed.

Lemma trim_nil_iff s : trim s = [] <-> forallb is_ws s = true.
Proof.
  rewrite <- skip_while_nil_iff. unfold trim, trimEnd, trimStart. split.
  - intros H. destruct (skip_while is_ws s) as [|c r] eqn:Hs; [reflexivity|].
    exfalso. pose proof (skip_while_head _ _ _ _ Hs) as Hc.
    apply (f_equal (@rev N)) in H. rewrite rev_involutive in H.
    cbn [rev] in H. exact (skip_while_snoc is_ws (rev r) c Hc H).
  - intros ->. reflexivity.
Qed.

Lemma strip_nil_iff text : Format.strip text = [] <-> forallb is_ws text = true.
Proof.
  unfold Format.strip. rewrite trim_nil_iff.
  assert (H : forallb is_ws (List.filter (fun c => negb (c =? CR)%N) text)
              = forallb is_ws text).
  { induction text as [|c text IH]; [reflexivity|].
    cbn [List.filter forallb]. destruct (N.eqb_spec c CR) as [-> |_]; cbn [negb forallb].
    - rewrite IH. reflexivity.
    - rewrite IH. reflexivity. }
  rewrite H. tauto.
Qed.

Lemma lines_of_nonempty c : c <> [] -> trimmed c -> Format.lines_of c <> [].
Proof.
  destruct c as [|c0 r]; [congruence|]. intros _ [Hh _].
  specialize (Hh c0 eq_refl).
  assert (Hlf : (c0 =? LF)%N = false)
    by (destruct (N.eqb_spec c0 LF) as [-> |_]; [discriminate Hh|reflexivity]).
  assert (Hfirst : forall l, Format.nonempty (trim (c0 :: l)) = true).
  { intros l. rewrite nonempty_length.
    destruct (trim (c0 :: l)) eqn:Ht; [|reflexivity].
    apply trim_nil_iff in Ht. cbn [forallb] in Ht. rewrite Hh in Ht. discriminate. }
  unfold Format.lines_of. cbn [split_on]. rewrite Hlf.
  destruct (split_on LF r) as [|l ls]; cbn [map List.filter]; rewrite Hfirst; discriminate.
Qed.

(** X18: on a string and for at least one line, [formatFortune] returns
    the empty string exactly when the string is blank, that is, made of
    white space and line terminators only (the empty string included): it
    is for these provider texts, and for no others, that the AI endpoint
    answers 502. *)
Theorem formatFortune_empty_iff_blank (text : jsstring) (lines : Z) :
  1 <= lines ->
  Format.formatFortune (JStr text) lines 140 = Ok [] <-> forallb is_ws text = true.
Proof.
  intros Hl. unfold Format.formatFortune. rewrite cleaned_string.
  cbn [mbind result_bind]. rewrite <- strip_nil_iff.
  destruct (Format.strip text) as [|c0 r] eqn:Hs; [cbn; tauto|].
  replace (Format.nonempty (c0 :: r)) with true by reflexivity. cbn [negb].
  split; [|discriminate]. intros [= H]. exfalso.
  assert (Htr : trimmed (c0 :: r))
    by (rewrite <- Hs; unfold Format.strip; apply trim_trimmed).
  pose proof (lines_of_nonempty (c0 :: r) ltac:(discriminate) Htr) as Hne.
  destruct (Format.lines_of (c0 :: r)) as [|k ks] eqn:Hk; [congruence|].
  assert (Hkne : k <> []).
  { apply (lines_of_line (c0 :: r) k). rewrite Hk. apply list_elem_of_here. }
  rewrite slice0_nonneg in H by lia.
  destruct (Z.to_nat lines) as [|m] eqn:Hm; [lia|].
  cbn [take map] in H. revert H. apply join_with_nonempty.
  rewrite truncLine_cap. unfold Format.cap_line.
  destruct (length k <=? 140)%nat; [exact Hkne|].
  rewrite js_ellipsis. destruct (take (140 - 1) k); discriminate.
Qed.

(** Spaces, a carriage return and a newline. *)
Lemma formatFortune_empty_iff_blank_witness :
  Format.formatFortune (JStr [32; 32; 13; 10; 9]%N) 2 140 = Ok []
  <-> forallb is_ws [32; 32; 13; 10; 9]%N = true.
Proof.
  apply (formatFortune_empty_iff_blank [32; 32; 13; 10; 9]%N 2). lia.
Defined.

(** *** Responses of the provider that carry no text *)

Lemma completion_text_no_choice rsp :
  nullish rsp = false ->
  nullish (opt_chain (get_prop rsp (js "choices")) get_first) = true ->
  AI.completion_text rsp = Ok (JStr []).
Proof.
  intros Hr Hc. unfold AI.completion_text, member. rewrite Hr.
  cbn [mbind result_bind].
  set (first := opt_chain (get_prop rsp (js "choices")) get_first) in *.
  replace (opt_chain first (fun o => get_prop o (js "message"))) with JUndefined
    by (unfold opt_chain; rewrite Hc; reflexivity).
  reflexivity.
Qed.

(** X19: a provider response that is an object but holds no first choice
    -- no [choices], [choices: null] or an empty array -- does not take the
    fallback: its text counts as empty, and a valid request whose key has
    no live entry is answered with status 502 and [Empty AI result]; the
    call is recorded, nothing is stored, and the cookie is set if the
    request had none. *)
Theorem response_without_choice_is_502 (E : env) (req : AI.request) (s : hstate)
    (lines : Z) (key : jsstring) (rsp : jsval) :
  valid_request E req s lines key ->
  no_live_entry key (clock E (S (clock_reads s))) s ->
  Diag.has_credential E = true ->
  completion E (length (provider_calls s)) (AI.prompt (AI.lang_of req) lines) = Ok rsp ->
  nullish rsp = false ->
  nullish (opt_chain (get_prop rsp (js "choices")) get_first) = true ->
  let r := {| statusCode := 502; setCookie := cookie_set E req s;
              sent := Some (ErrorBody (js "Empty AI result")) |} in
  AI.serve E req s
  = (r, {| aiCache := aiCache s; clock_reads := reads_after_lookup key s;
           random_draws := draws_after req s;
           provider_calls := AI.prompt (AI.lang_of req) lines :: provider_calls s;
           res := r |}).
Proof.
  intros Hv Hm Hk Ha Hr Hc r.
  assert (Hp : provider_gives (completion E (length (provider_calls s))
                                 (AI.prompt (AI.lang_of req) lines)) lines []).
  { exists rsp, (JStr []). split; [exact Ha|].
    split; [apply completion_text_no_choice; assumption|].
    unfold Format.formatFortune. rewrite cleaned_string. reflexivity. }
  apply serve_by_path.
  exact (Out_empty E req s _ _ lines key Hv Hm Hk Hp eq_refl eq_refl).
Qed.

(** The provider answers [{ "id": "cmpl-1" }]. *)
Lemma response_without_choice_is_502_witness :
  let E := Scenario.env_hollow in
  let req := Sample.req_day in
  let key := js "00112233445566778899aabbccddeeff:en:relationship:2:2024-01-01" in
  let r := {| statusCode := 502; setCookie := cookie_set E req AI.boot;
              sent := Some (ErrorBody (js "Empty AI result")) |} in
  AI.serve E req AI.boot
  = (r, {| aiCache := aiCache AI.boot; clock_reads := reads_after_lookup key AI.boot;
           random_draws := draws_after req AI.boot;
           provider_calls := AI.prompt (AI.lang_of req) 2 :: provider_calls AI.boot;
           res := r |}).
Proof.
  intros E req key r.
  apply (response_without_choice_is_502 E req AI.boot 2 key
           (JObj [(js "id", JStr (js "cmpl-1"))])).
  - vm_compute. repeat split; reflexivity.
  - left. vm_compute. reflexivity.
  - vm_compute. reflexivity.
  - vm_compute. reflexivity.
  - vm_compute. reflexivity.
  - vm_compute. reflexivity.
Defined.

(** *** The diagnostics route *)

(** X20: the [hasKey] field of the diagnostics answer is true exactly when
    some request to the AI endpoint can reach the provider: with
    [hasKey: false] no request, in no state, makes a provider call, and
    with [hasKey: true] a valid request on a fresh process does. *)
Theorem diag_hasKey_iff_provider_reachable (E : env) (R : Diag.runtime) :
  Diag.hasKey (Diag.api_diag E R) = true
  <-> exists req s, provider_calls (snd (AI.serve E req s)) <> provider_calls s.
Proof.
  cbn [Diag.api_diag Diag.hasKey]. split.
  - intros Hcred. exists Sample.req_day, AI.boot.
    assert (H1' : AI.clampLines (AI.lines_of Sample.req_day) = Ok 2)
      by (vm_compute; reflexivity).
    assert (H2' : AI.localDateOk (AI.localDate_of Sample.req_day) = Ok true)
      by (vm_compute; reflexivity).
    assert (H3' : forall l, exists k,
               AI.cacheKey (AI.userIdOf E Sample.req_day AI.boot)
                 (AI.lang_of Sample.req_day) (AI.theme_of Sample.req_day) l
                 (AI.localDate_of Sample.req_day) = Ok k)
      by (intros l; eexists; reflexivity).
    destruct (serve_outcome E Sample.req_day AI.boot)
    as [e0 Hc Hr Hs|l0 H1 H2 Hr Hs|l0 e0 H1 H2 H3 Hr Hs|l0 k0 c0 p0 Hv Hl Hlive Hu Hr Hs|l0 k0 c0 e0 Hv Hl Hlive Hu Hr Hs|l0 k0 Hv Hm Hk Hr Hs|l0 k0 e0 Hv Hm Hk Hp Hr Hs|l0 k0 Hv Hm Hk Hp Hr Hs|l0 k0 t0 p0 Hv Hm Hk Hp Hne Hu Hr Hs|l0 k0 t0 e0 Hv Hm Hk Hp Hne Hu Hr Hs];
      first [rewrite Hs; cbn; discriminate
            |congruence
            |destruct Hc as [Hc|(_ & Hc)]; congruence
            |destruct (H3' l0) as (k & Hk'); congruence
            |cbn in Hl; rewrite lookup_empty in Hl; discriminate].
  - intros (req & s & Hcall).
    destruct (Diag.has_credential E) eqn:Hcred; [reflexivity|].
    destruct Hcall. apply (no_credential_step E req s Hcred).
Qed.

(** *** What a key determines *)

Lemma key_tail lines :
  1 <= lines <= 2 ->
  js ":" ++ Number_toString lines ++ js ":" = [58; 48 + Z.to_N lines; 58]%N.
Proof.
  intros H. assert (lines = 1 \/ lines = 2) as [-> | ->] by lia; vm_compute; reflexivity.
Qed.

Lemma cacheKey_shape u lang t n d k :
  AI.cacheKey u lang t n d = Ok k ->
  exists us ts ds, ToString d = Ok ds
                   /\ k = (us ++ js ":" ++ lang ++ js ":" ++ ts)
                          ++ (js ":" ++ Number_toString n ++ js ":") ++ ds.
Proof.
  unfold AI.cacheKey. destruct (ToString u) as [us|e]; [|discriminate].
  destruct (ToString t) as [ts|e]; [|discriminate].
  destruct (ToString d) as [ds|e]; [|discriminate].
  cbn [mbind result_bind]. intros [= <-]. exists us, ts, ds. split; [reflexivity|].
  rewrite <- !app_assoc. reflexivity.
Qed.

(** X21: the key determines the line count and the date.  Two valid
    requests -- of whatever users, languages and themes, to whatever
    processes -- whose keys are one string have the same clamped line
    count and the same date string: an entry stored for one day or one
    line count is never served for another. *)
Theorem equal_keys_same_lines_and_date (E1 E2 : env) (req1 req2 : AI.request)
    (s1 s2 : hstate) (l1 l2 : Z) (k : jsstring) :
  valid_request E1 req1 s1 l1 k ->
  valid_request E2 req2 s2 l2 k ->
  l1 = l2 /\ ToString (AI.localDate_of req1) = ToString (AI.localDate_of req2).
Proof.
  intros (Hl1 & Hd1 & Hk1) (Hl2 & Hd2 & Hk2).
  apply clampLines_range in Hl1, Hl2.
  apply localDateOk_accepts in Hd1 as (d1 & Hs1 & Hm1).
  apply localDateOk_accepts in Hd2 as (d2 & Hs2 & Hm2).
  apply matchLocalDate_length in Hm1, Hm2.
  apply cacheKey_shape in Hk1 as (u1 & t1 & d1' & Hs1' & ->).
  apply cacheKey_shape in Hk2 as (u2 & t2 & d2' & Hs2' & Heq).
  rewrite Hs1 in Hs1'. injection Hs1' as <-.
  rewrite Hs2 in Hs2'. injection Hs2' as <-.
  rewrite !key_tail in Heq by assumption.
  apply app_inj_2 in Heq as [_ Heq];
    [|cbn [length app]; rewrite Hm1, Hm2; reflexivity].
  injection Heq as Hn Hd. rewrite Hs1, Hs2, Hd. split; [lia|reflexivity].
Qed.

(** The first request of a user and the same request with the cookie. *)
Lemma equal_keys_same_lines_and_date_witness :
  2 = 2
  /\ ToString (AI.localDate_of Sample.req_day)
     = ToString (AI.localDate_of Sample.req_day_again).
Proof.
  apply (equal_keys_same_lines_and_date Sample.env_ok Sample.env_ok
           Sample.req_day Sample.req_day_again AI.boot AI.boot 2 2
           (js "00112233445566778899aabbccddeeff:en:relationship:2:2024-01-01"));
    vm_compute; repeat split; reflexivity.
Defined.

(** *** The expiry boundary *)

(** X22: a valid request whose key has an entry is answered from the cache
    exactly when the entry expires strictly after the reading of the clock
    taken at the lookup -- an entry whose expiry equals that reading is
    already expired -- and [userId.slice(0,8)] of the log line does not
    throw; the text is then the entry's. *)
Theorem cache_serves_iff_live (E : env) (req : AI.request) (s : hstate)
    (lines : Z) (key : jsstring) (c : entry) :
  valid_request E req s lines key ->
  aiCache s !! key = Some c ->
  (clock E (S (clock_reads s)) < expiresAt c
   /\ exists p, AI.user_prefix (AI.userIdOf E req s) = Ok p)
  <-> exists text cached,
        sent (fst (AI.serve E req s)) = Some (FortuneBody text cached (js "cache")).
Proof.
  intros Hv0 Hl0. split.
  - intros (Hlive0 & p & Hu0).
    rewrite (serve_by_path E req s _ _
               (Out_hit E req s _ _ lines key c p Hv0 Hl0 Hlive0 Hu0 eq_refl eq_refl)).
    cbn. eauto.
  - intros (text & cached & H). revert H.
    destruct (serve_outcome E req s)
    as [e0 Hc Hr Hs|l0 H1 H2 Hr Hs|l0 e0 H1 H2 H3 Hr Hs|l0 k0 c0 p0 Hv Hl Hlive Hu Hr Hs|l0 k0 c0 e0 Hv Hl Hlive Hu Hr Hs|l0 k0 Hv Hm Hk Hr Hs|l0 k0 e0 Hv Hm Hk Hp Hr Hs|l0 k0 Hv Hm Hk Hp Hr Hs|l0 k0 t0 p0 Hv Hm Hk Hp Hne Hu Hr Hs|l0 k0 t0 e0 Hv Hm Hk Hp Hne Hu Hr Hs];
      rewrite Hr; cbn [sent]; unfold fallback_body; intros H;
      try discriminate H;
      try (destruct js_fallback_cache;
           exact (f_equal (fun o => match o with
                                    | Some (FortuneBody _ _ src) => src
                                    | _ => []
                                    end) H)).
    + destruct (valid_request_unique _ _ _ _ _ _ _ Hv0 Hv) as (<- & <-).
      rewrite Hl0 in Hl. injection Hl as <-. eauto.
Qed.

(** The entry of the first request, at the second one: live under a clock
    that stands still, expired two days later. *)
Lemma cache_serves_iff_live_witness :
  (clock Scenario.env_later
     (S (clock_reads (snd (AI.serve Scenario.env_later Sample.req_day AI.boot))))
   < 1704067200000 + 26 * 3600 * 1000
   /\ exists p,
        AI.user_prefix
          (AI.userIdOf Scenario.env_later Sample.req_day_again
             (snd (AI.serve Scenario.env_later Sample.req_day AI.boot))) = Ok p)
  <-> exists text cached,
        sent (fst (AI.serve Scenario.env_later Sample.req_day_again
                     (snd (AI.serve Scenario.env_later Sample.req_day AI.boot))))
        = Some (FortuneBody text cached (js "cache")).
Proof.
  apply (cache_serves_iff_live Scenario.env_later Sample.req_day_again
           (snd (AI.serve Scenario.env_later Sample.req_day AI.boot)) 2
           (js "00112233445566778899aabbccddeeff:en:relationship:2:2024-01-01")
           {| fortune := js "Speak warmly.
Trust grows slowly."; expiresAt := 1704067200000 + 26 * 3600 * 1000 |}).
  - vm_compute. repeat split; reflexivity.
  - vm_compute. reflexivity.
Defined.
